(** * Aegis: access control, configuration panel and audit log of [bot.py]

    A shallow embedding of [src/bot.py].  Python values that travel through
    the JSON configuration are kept dynamically typed ([pyval]) so that
    [dict.get], truthiness tests and iteration behave as in the source;
    exceptions are explicit ([result]); the file store, the clock and the
    calls made to the chat platform are threaded through a small state and
    error monad ([M]). *)

From stdpp Require Import base option list gmap strings pretty sorting.
From Stdlib Require Import ZArith.

Set Warnings "-register-all".
#[local] Open Scope string_scope.
#[local] Open Scope list_scope.
#[local] Open Scope Z_scope.

(** ** Python values and exceptions *)

(** What [json.loads] can return and [json.dumps] accepts.  JSON numbers
    with a fraction or an exponent are left out: role, channel and user
    identifiers and timestamps are integers. *)
Inductive pyval :=
| PNone
| PBool (b : bool)
| PInt (z : Z)
| PStr (s : string)
| PList (l : list pyval)
| PDict (d : gmap string pyval).

Inductive exn :=
| AttributeError
| TypeError
| ValueError
| OSError
| HTTPException.

Inductive result (A : Type) :=
| Ok (a : A)
| Raise (e : exn).
Arguments Ok {A} a.
Arguments Raise {A} e.

Definition rbind {A B} (r : result A) (k : A → result B) : result B :=
  match r with
  | Ok a => k a
  | Raise e => Raise e
  end.

Notation "'let?' x := e 'in' k" := (rbind e (fun x => k))
  (at level 10, x name, e at level 100, k at level 200).

(** [bool(v)]: the truth value Python gives to [v] in [if v] / [not v]. *)
Definition truthy (v : pyval) : bool :=
  match v with
  | PNone => false
  | PBool b => b
  | PInt z => negb (z =? 0)
  | PStr s => negb (String.eqb s "")
  | PList l => match l with [] => false | _ => true end
  | PDict d => negb (bool_decide (d = ∅))
  end.

(** [x or y] *)
Definition py_or (x y : pyval) : pyval := if truthy x then x else y.

(** The elements a [for] loop (or [set(...)], or a comprehension) draws
    from [v]; [None], booleans and integers are not iterable. *)
Definition py_iter (v : pyval) : result (list pyval) :=
  match v with
  | PList l => Ok l
  | PStr s => Ok ((λ c, PStr (String c EmptyString)) <$> String.list_ascii_of_string s)
  | PDict d => Ok ((λ kv, PStr kv.1) <$> map_to_list d)
  | PNone | PBool _ | PInt _ => Raise TypeError
  end.

(** Lists and dicts cannot be hashed: using one as a set element or as a
    dictionary key raises [TypeError]. *)
Definition hashable (v : pyval) : bool :=
  match v with
  | PList _ | PDict _ => false
  | _ => true
  end.

(** [v == i] for an integer [i]; [True == 1] and [False == 0] in Python. *)
Definition py_eq_int (i : Z) (v : pyval) : bool :=
  match v with
  | PInt z => z =? i
  | PBool b => Z.b2z b =? i
  | _ => false
  end.

(** [v in ids] where [ids] is a set (or the key set of a dict) of integers. *)
Definition py_in_ids (v : pyval) (ids : list Z) : result bool :=
  if hashable v then Ok (existsb (λ i, py_eq_int i v) ids) else Raise TypeError.

(** [any(f(x) for x in l)]: stops at the first true element, and at the
    first exception. *)
Fixpoint py_any {A} (f : A → result bool) (l : list A) : result bool :=
  match l with
  | [] => Ok false
  | x :: l' =>
      let? b := f x in
      if b then Ok true else py_any f l'
  end.

(** [[f(x) for x in l]] *)
Fixpoint py_map {A B} (f : A → result B) (l : list A) : result (list B) :=
  match l with
  | [] => Ok []
  | x :: l' =>
      let? y := f x in
      let? ys := py_map f l' in
      Ok (y :: ys)
  end.

(** [set(v)]: the elements of [v], all of which must be hashable.  The set
    is kept as the list of its elements; only membership is ever asked. *)
Definition py_set (v : pyval) : result (list pyval) :=
  let? xs := py_iter v in
  if forallb hashable xs then Ok xs else Raise TypeError.

(** [i in s] for an integer [i] and a set [s] built by [py_set]. *)
Definition int_in_set (i : Z) (s : list pyval) : bool :=
  existsb (py_eq_int i) s.

(** [cfg.copy()]: dicts and lists have it. *)
Definition py_copy (v : pyval) : result pyval :=
  match v with
  | PDict d => Ok (PDict d)
  | PList l => Ok (PList l)
  | _ => Raise AttributeError
  end.

(** [cfg.get(key, default)]; only a dict has [get]. *)
Definition py_get (cfg : pyval) (key : string) (dflt : pyval) : result pyval :=
  match cfg with
  | PDict d => Ok (default dflt (d !! key))
  | _ => Raise AttributeError
  end.

(** ** The chat platform's objects (discord.py), as far as the code reads them *)

Record Role := {
  role_id : Z;
  role_name : string;
  role_position : Z;
  role_is_default : bool;      (* [r.is_default()]: the community-wide role *)
  role_mention : string
}.

Record Channel := {
  channel_id : Z;
  channel_name : string;
  channel_is_text : bool;      (* [isinstance(ch, discord.TextChannel)] *)
  channel_mention : string
}.

Record Guild := {
  guild_id : Z;
  guild_roles : list Role;
  guild_channels : list Channel
}.

(** [interaction.user] is a [discord.Member] inside a community and a plain
    [discord.User] elsewhere; only a member has roles and permissions. *)
Record MemberData := {
  member_roles : list Role;
  member_administrator : bool  (* [guild_permissions.administrator] *)
}.

Record User := {
  user_id : Z;
  user_mention : string;
  user_member : option MemberData
}.

Definition is_member (u : User) : bool :=
  match user_member u with Some _ => true | None => false end.

Record Interaction := {
  inter_id : Z;
  inter_user : User;
  inter_guild : option Guild;
  inter_channel : Channel
}.

(** [guild.get_role(key)]: a lookup in the dict of roles, keyed by id. *)
Definition get_role (g : Guild) (key : pyval) : result (option Role) :=
  if hashable key
  then Ok (find (λ r, py_eq_int (role_id r) key) (guild_roles g))
  else Raise TypeError.

(** [guild.get_channel(key)] *)
Definition get_channel (g : Guild) (key : pyval) : result (option Channel) :=
  if hashable key
  then Ok (find (λ c, py_eq_int (channel_id c) key) (guild_channels g))
  else Raise TypeError.

(** [guild.text_channels] *)
Definition text_channels (g : Guild) : list Channel :=
  filter (λ c, channel_is_text c = true) (guild_channels g).

(** ** Outbound calls *)

Record AllowedMentions := {
  am_roles : bool;
  am_users : bool;
  am_everyone : bool
}.

Inductive Color := Red | Orange.

Record Embed := {
  embed_title : string;
  embed_color : Color;
  embed_description : string
}.

(** One entry per completed call to the platform or to the file store. *)
Inductive Event :=
| ChannelSend (ch : Z) (content : option string) (embed : option Embed)
              (mentions : AllowedMentions)
| ResponseSend (iid : Z) (content : string) (ephemeral : bool)
| ResponseEdit (iid : Z) (content : string) (view_removed : bool)
| ResponseModal (iid : Z)
| ResponseDefer (iid : Z) (ephemeral : bool)
| FileWrite (gid : Z) (data : pyval).

(** ** The JSON codec

    [json.dumps] / [json.loads] and the bytes of the file belong to Python's
    library, so the development is parametric in them.  [loads] stands for
    [json.loads(p.read_text("utf-8"))] and is [None] when that raises. *)
Class JsonCodec := {
  Text : Type;
  dumps : pyval → Text;
  loads : Text → option pyval
}.

Section Bot.
Context `{JsonCodec}.

(** ** The world the program runs in *)

Record World := {
  files : gmap Z Text;          (* [./config/<guild_id>.json], by guild id *)
  trace : list Event;           (* the calls completed so far, oldest first *)
  clock : Z;                    (* [int(time.time())] *)
  disk_ok : Z → bool;           (* does [write_text] on that file succeed *)
  net_ok : Event → bool;        (* does the platform complete that call *)
  jump_url : Z → nat → string   (* link of a message posted in a channel *)
}.

Definition with_trace (w : World) (t : list Event) : World :=
  {| files := files w; trace := t; clock := clock w;
     disk_ok := disk_ok w; net_ok := net_ok w; jump_url := jump_url w |}.

Definition with_files (w : World) (f : gmap Z Text) : World :=
  {| files := f; trace := trace w; clock := clock w;
     disk_ok := disk_ok w; net_ok := net_ok w; jump_url := jump_url w |}.

(** State and exceptions: what was done before a [raise] stays done. *)
Definition M (S A : Type) : Type := S → result A * S.

Definition ret {S A} (a : A) : M S A := λ s, (Ok a, s).
Definition throw {S A} (e : exn) : M S A := λ s, (Raise e, s).
Definition bind {S A B} (m : M S A) (k : A → M S B) : M S B :=
  λ s, match m s with
       | (Ok a, s') => k a s'
       | (Raise e, s') => (Raise e, s')
       end.
Definition get {S} : M S S := λ s, (Ok s, s).
Definition put {S} (s : S) : M S unit := λ _, (Ok tt, s).
Definition lift_result {S A} (r : result A) : M S A := λ s, (r, s).

Notation "x <- e ;; k" := (bind e (fun x => k))
  (at level 100, e at next level, k at level 200, right associativity).
Notation "e ;;; k" := (bind e (fun _ => k))
  (at level 100, k at level 200, right associativity).

(** A call to the platform: recorded when it completes, [HTTPException]
    otherwise. *)
Definition emit (e : Event) : M World unit :=
  w <- get ;;
  if net_ok w e then put (with_trace w (trace w ++ [e])) else throw HTTPException.

(** [await channel.send(content=..., embed=..., allowed_mentions=...)];
    the result is the [jump_url] of the message. *)
Definition channel_send (c : Channel) (content : option string)
    (embed : option Embed) (mentions : AllowedMentions) : M World string :=
  w <- get ;;
  emit (ChannelSend (channel_id c) content embed mentions) ;;;
  ret (jump_url w (channel_id c) (length (trace w))).

(** [int(time.time())] *)
Definition time_now : M World Z := w <- get ;; ret (clock w).

(** ** ConfigStore *)

Definition empty_cfg : pyval := PDict ∅.

Definition load_cfg (guild : Z) : M World pyval :=
  w <- get ;;
  match files w !! guild with
  | Some text =>
      match loads text with
      | Some v => ret v
      | None => ret empty_cfg
      end
  | None => ret empty_cfg
  end.

Definition save_cfg (guild : Z) (data : pyval) : M World unit :=
  w <- get ;;
  if disk_ok w guild
  then put (with_trace (with_files w (<[guild := dumps data]> (files w)))
                       (trace w ++ [FileWrite guild data]))
  else throw OSError.

(** ** Rendering helpers *)

Fixpoint join (sep : string) (l : list string) : string :=
  match l with
  | [] => ""
  | [x] => x
  | x :: l' => x +:+ sep +:+ join sep l'
  end.

Definition get_role_mentions (guild : Guild) (role_ids : pyval) : result string :=
  let? ids := py_iter (py_or role_ids (PList [])) in
  let? roles := py_map (get_role guild) ids in
  Ok (join ", " (role_mention <$> omap id roles)).

Definition get_channel_mention (guild : Guild) (channel : pyval) : result string :=
  if negb (truthy channel) then Ok "Not set"
  else
    let? ch := get_channel guild channel in
    match ch with
    | Some c => Ok (if channel_is_text c then channel_mention c else "Not set")
    | None => Ok "Not set"
    end.

(** ** AuthorizationPolicy *)

Definition msg_not_configured : string :=
  "No allowed roles are configured yet. Ask an admin to run `/setup`.".
Definition msg_not_in_server : string := "Use this in a server.".
Definition msg_missing_role : string :=
  "You don’t have a required role to use this command.".
Definition msg_excluded : string :=
  "Your role is excluded from using this command.".

Definition member_has_any_role (member : User) (role_ids : pyval) : result bool :=
  if negb (truthy role_ids) then Ok false
  else
    match user_member member with
    | None => Raise AttributeError
    | Some m =>
        let member_role_ids := role_id <$> member_roles m in
        let? rids := py_iter role_ids in
        py_any (λ rid, py_in_ids rid member_role_ids) rids
    end.

Definition can_use_commands (member : User) (cfg : pyval) : result (bool * string) :=
  let? allowed := py_get cfg "allowed_role_ids" (PList []) in
  let? excluded := py_get cfg "excluded_role_ids" (PList []) in
  if negb (truthy allowed) then Ok (false, msg_not_configured)
  else if negb (is_member member) then Ok (false, msg_not_in_server)
  else
    let? has_allowed := member_has_any_role member allowed in
    if negb has_allowed then Ok (false, msg_missing_role)
    else if truthy excluded then
      let? has_excluded := member_has_any_role member excluded in
      if has_excluded then Ok (false, msg_excluded) else Ok (true, "")
    else Ok (true, "").

(** ** Audit log *)

Definition roles_users_only : AllowedMentions :=
  {| am_roles := true; am_users := true; am_everyone := false |}.

Definition log_action (guild : Guild) (cfg : pyval) (content : string)
    (embed : option Embed) : M World unit :=
  log_channel_id <- lift_result (py_get cfg "log_channel_id" PNone) ;;
  if negb (truthy log_channel_id) then ret tt
  else
    ch <- lift_result (get_channel guild log_channel_id) ;;
    match ch with
    | Some c =>
        if channel_is_text c
        then channel_send c (Some content) embed roles_users_only ;;; ret tt
        else ret tt
    | None => ret tt
    end.

(** ** UI components *)

(** The value of a select option is either the string ["none"] or
    [str(id)] for a role or channel id; [int(str(id)) = id] and
    [int("none")] raises [ValueError]. *)
Inductive optval :=
| OptNone
| OptId (z : Z).

Definition is_none (v : optval) : bool :=
  match v with OptNone => true | OptId _ => false end.

Definition int_of (v : optval) : result Z :=
  match v with
  | OptId z => Ok z
  | OptNone => Raise ValueError
  end.

Record SelectOption := {
  opt_label : string;
  opt_value : optval;
  opt_default : bool
}.

(** [values] is the component's state kept by the library: the values of
    the user's latest submission on it, and [[]] before any. *)
Record RolesSelect := {
  rs_placeholder : string;
  rs_min_values : Z;
  rs_max_values : Z;
  rs_row : Z;
  rs_options : list SelectOption;
  rs_preselected : list pyval;
  rs_values : list optval
}.

Record ChannelsSelect := {
  cs_placeholder : string;
  cs_min_values : Z;
  cs_max_values : Z;
  cs_row : Z;
  cs_options : list SelectOption;
  cs_allow_none : bool;
  cs_preselected : pyval;
  cs_values : list optval
}.

(** [RolesSelect.__init__] *)
Definition new_RolesSelect (placeholder : string) (preselected : pyval)
    (max_values row : Z) : result RolesSelect :=
  let? pre := py_set (py_or preselected (PList [])) in
  Ok {| rs_placeholder := placeholder; rs_min_values := 0;
        rs_max_values := max_values; rs_row := row; rs_options := [];
        rs_preselected := pre; rs_values := [] |}.

(** [ChannelsSelect.__init__] *)
Definition new_ChannelsSelect (placeholder : string) (allow_none : bool)
    (preselected : pyval) (row : Z) : ChannelsSelect :=
  {| cs_placeholder := placeholder;
     cs_min_values := if allow_none then 0 else 1;
     cs_max_values := 1; cs_row := row; cs_options := [];
     cs_allow_none := allow_none; cs_preselected := preselected;
     cs_values := [] |}.

Definition rs_with_options (s : RolesSelect) (o : list SelectOption) : RolesSelect :=
  {| rs_placeholder := rs_placeholder s; rs_min_values := rs_min_values s;
     rs_max_values := rs_max_values s; rs_row := rs_row s; rs_options := o;
     rs_preselected := rs_preselected s; rs_values := rs_values s |}.

Definition rs_with_values (s : RolesSelect) (v : list optval) : RolesSelect :=
  {| rs_placeholder := rs_placeholder s; rs_min_values := rs_min_values s;
     rs_max_values := rs_max_values s; rs_row := rs_row s;
     rs_options := rs_options s; rs_preselected := rs_preselected s;
     rs_values := v |}.

Definition cs_with_options (s : ChannelsSelect) (o : list SelectOption) : ChannelsSelect :=
  {| cs_placeholder := cs_placeholder s; cs_min_values := cs_min_values s;
     cs_max_values := cs_max_values s; cs_row := cs_row s; cs_options := o;
     cs_allow_none := cs_allow_none s; cs_preselected := cs_preselected s;
     cs_values := cs_values s |}.

Definition cs_with_values (s : ChannelsSelect) (v : list optval) : ChannelsSelect :=
  {| cs_placeholder := cs_placeholder s; cs_min_values := cs_min_values s;
     cs_max_values := cs_max_values s; cs_row := cs_row s;
     cs_options := cs_options s; cs_allow_none := cs_allow_none s;
     cs_preselected := cs_preselected s; cs_values := v |}.

(** [sorted(roles, key=lambda x: x.position, reverse=True)]: highest
    position first, roles of equal position in their original order. *)
Fixpoint insert_role (r : Role) (l : list Role) : list Role :=
  match l with
  | [] => [r]
  | x :: l' =>
      if role_position r <? role_position x
      then x :: insert_role r l'
      else r :: x :: l'
  end.

Definition sorted_roles (roles : list Role) : list Role :=
  foldr insert_role [] roles.

(** A Python string is a sequence of code points; a [string] here holds
    their UTF-8 bytes.  A byte of the form 10xxxxxx continues the code point
    that the bytes before it began. *)
Definition is_continuation (c : Ascii.ascii) : bool :=
  let n := Ascii.N_of_ascii c in
  ((128 <=? n) && (n <? 192))%N.

(** [len(s)]: the number of code points of [s]. *)
Fixpoint py_len (s : string) : nat :=
  match s with
  | EmptyString => O
  | String c s' => if is_continuation c then py_len s' else S (py_len s')
  end.

(** [s[:n]]: the first [n] code points of [s], and all of [s] when it has
    fewer. *)
Fixpoint py_prefix (n : nat) (s : string) : string :=
  match s with
  | EmptyString => EmptyString
  | String c s' =>
      if is_continuation c then String c (py_prefix n s')
      else
        match n with
        | O => EmptyString
        | S n' => String c (py_prefix n' s')
        end
  end.

(** The options of a role picker: every role but the default one. *)
Definition role_options (guild : Guild) (is_default : Role → bool) : list SelectOption :=
  (λ r, {| opt_label := py_prefix 95 (role_name r);
           opt_value := OptId (role_id r);
           opt_default := is_default r |})
    <$> filter (λ r, role_is_default r = false) (sorted_roles (guild_roles guild)).

Definition channel_options (guild : Guild) (is_default : Channel → bool) : list SelectOption :=
  (λ ch, {| opt_label := py_prefix 95 ("#" +:+ channel_name ch);
            opt_value := OptId (channel_id ch);
            opt_default := is_default ch |})
    <$> text_channels guild.

Definition none_option (is_default : bool) : SelectOption :=
  {| opt_label := "None"; opt_value := OptNone; opt_default := is_default |}.

Definition is_PNone (v : pyval) : bool :=
  match v with PNone => true | _ => false end.

Record SetupView := {
  view_guild : Guild;
  view_cfg : pyval;
  view_invoker : User;
  view_timeout : Z;
  allowed_select : RolesSelect;
  excluded_select : RolesSelect;
  admiral_select : RolesSelect;
  war_select : ChannelsSelect;
  log_select : ChannelsSelect
}.

(** [SetupView.__init__] up to the buttons (lines 93 to 141): the panel
    object with its five pickers and their options. *)
Definition panel_selects (guild : Guild) (cfg : pyval) (invoker : User)
    : result SetupView :=
  let? cfg := py_copy cfg in
  let? allowed_raw := py_get cfg "allowed_role_ids" (PList []) in
  let? allowed_ids := py_set allowed_raw in
  let? excluded_raw := py_get cfg "excluded_role_ids" (PList []) in
  let? excluded_ids := py_set excluded_raw in
  let? admiral_id := py_get cfg "admiral_role_id" PNone in
  let? war_channel_id := py_get cfg "war_channel_id" PNone in
  let? log_channel_id := py_get cfg "log_channel_id" PNone in
  let? allowed_sel :=
    new_RolesSelect "Allowed Roles (who can use commands)" (PList allowed_ids) 25 0 in
  let allowed_opts := role_options guild (λ r, int_in_set (role_id r) allowed_ids) in
  let? excluded_sel :=
    new_RolesSelect "Excluded Roles (block these)" (PList excluded_ids) 25 1 in
  let excluded_opts := role_options guild (λ r, int_in_set (role_id r) excluded_ids) in
  let? admiral_sel :=
    new_RolesSelect "Admiral Role (optional, pinged on /declare)"
      (if truthy admiral_id then PList [admiral_id] else PList []) 1 2 in
  let admiral_opts :=
    none_option (is_PNone admiral_id)
      :: role_options guild (λ r, py_eq_int (role_id r) admiral_id) in
  let war_sel :=
    new_ChannelsSelect "War Declaration Channel (optional)" true war_channel_id 3 in
  let war_opts :=
    none_option (is_PNone war_channel_id)
      :: channel_options guild (λ ch, py_eq_int (channel_id ch) war_channel_id) in
  let log_sel :=
    new_ChannelsSelect "Log Channel (required, recommend private)" false log_channel_id 4 in
  let log_opts :=
    channel_options guild (λ ch, py_eq_int (channel_id ch) log_channel_id) in
  Ok {| view_guild := guild; view_cfg := cfg; view_invoker := invoker;
        view_timeout := 600;
        allowed_select := rs_with_options allowed_sel allowed_opts;
        excluded_select := rs_with_options excluded_sel excluded_opts;
        admiral_select := rs_with_options admiral_sel admiral_opts;
        war_select := cs_with_options war_sel war_opts;
        log_select := cs_with_options log_sel log_opts |}.

Record Button := {
  btn_label : string;
  btn_row : Z
}.

(** [discord.ui.Button(style=..., label=..., row=...)].  The library takes
    rows 0 to 4 only and raises [ValueError] for any other row (the rows 0
    to 4 given to the five pickers pass the same test). *)
Definition new_Button (label : string) (row : Z) : result Button :=
  if (0 <=? row) && (row <? 5)
  then Ok {| btn_label := label; btn_row := row |}
  else Raise ValueError.

(** [SetupView.__init__].  After the pickers it creates the Save and Cancel
    buttons in row 5; binding the two callbacks and adding the seven items
    (lines 146 to 156) comes after that. *)
Definition new_SetupView (guild : Guild) (cfg : pyval) (invoker : User)
    : result SetupView :=
  let? view := panel_selects guild cfg invoker in
  let? save_btn := new_Button "Save" 5 in
  let? cancel_btn := new_Button "Cancel" 5 in
  Ok view.

(** A panel method runs on the panel object and the world. *)
Record ViewState := {
  self : SetupView;
  world : World
}.

Definition in_world {A} (m : M World A) : M ViewState A :=
  λ s, let (r, w) := m (world s) in (r, {| self := self s; world := w |}).

(** [interaction.response.send_message(content, ephemeral=...)] *)
Definition send_message (i : Interaction) (content : string) (ephemeral : bool)
    : M World unit :=
  emit (ResponseSend (inter_id i) content ephemeral).

(** [interaction.response.edit_message(content=..., view=None)] *)
Definition edit_message_no_view (i : Interaction) (content : string) : M World unit :=
  emit (ResponseEdit (inter_id i) content true).

Definition msg_locked : string :=
  "This setup panel is locked to the admin who opened it.".
Definition msg_select_log : string := "Please select a **Log Channel**.".
Definition msg_canceled : string := "Setup canceled. No changes saved.".

Definition nl : string := String (Ascii.ascii_of_nat 10) EmptyString.

(** [discord.Member] with [guild_permissions.administrator] *)
Definition is_administrator (u : User) : bool :=
  match user_member u with
  | Some m => member_administrator m
  | None => false
  end.

(** [SetupView.interaction_check] *)
Definition interaction_check (interaction : Interaction) : M ViewState bool :=
  s <- get ;;
  if user_id (inter_user interaction) =? user_id (view_invoker (self s)) then ret true
  else if is_administrator (inter_user interaction) then ret true
  else in_world (send_message interaction msg_locked true) ;;; ret false.

(** [x or alt] on strings *)
Definition str_or (x alt : string) : string :=
  if String.eqb x "" then alt else x.

(** An [int | None] as a Python value. *)
Definition of_opt_int (o : option Z) : pyval :=
  match o with Some z => PInt z | None => PNone end.

(** [[int(v) for v in values] if values else []] *)
Definition ids_of (values : list optval) : result (list Z) :=
  match values with
  | [] => Ok []
  | vals => py_map int_of vals
  end.

(** The optional single choice of [save]: nothing selected and the
    ["none"] option both give [None]. *)
Definition optional_choice (values : list optval) : result (option Z) :=
  match values with
  | [] => Ok None
  | val :: _ =>
      if is_none val then Ok None
      else let? z := int_of val in Ok (Some z)
  end.

Definition new_cfg_of (allowed excluded : list Z) (admiral_role_id war_channel_id : option Z)
    (log_channel_id updated_by updated_at : Z) : pyval :=
  PDict (list_to_map
    [ ("allowed_role_ids", PList (PInt <$> allowed));
      ("excluded_role_ids", PList (PInt <$> excluded));
      ("admiral_role_id", of_opt_int admiral_role_id);
      ("war_channel_id", of_opt_int war_channel_id);
      ("log_channel_id", PInt log_channel_id);
      ("updated_by", PInt updated_by);
      ("updated_at", PInt updated_at) ]).

(** The admiral line of the summary. *)
Definition admiral_text (guild : Guild) (admiral_role_id : pyval) : result string :=
  if truthy admiral_role_id then
    let? r := get_role guild admiral_role_id in
    match r with
    | Some _ =>
        let? r' := get_role guild admiral_role_id in
        match r' with
        | Some role => Ok (role_mention role)
        | None => Raise AttributeError
        end
    | None => Ok "Not set"
    end
  else Ok "Not set".

Definition save_summary (guild : Guild) (allowed excluded : list Z)
    (admiral_role_id war_channel_id : option Z) (log_channel_id : Z) : result string :=
  let? a := get_role_mentions guild (PList (PInt <$> allowed)) in
  let? e := get_role_mentions guild (PList (PInt <$> excluded)) in
  let? adm := admiral_text guild (of_opt_int admiral_role_id) in
  let? war := get_channel_mention guild (of_opt_int war_channel_id) in
  let? log := get_channel_mention guild (PInt log_channel_id) in
  Ok ("**Allowed:** " +:+ str_or a "_none_" +:+ nl +:+
      "**Excluded:** " +:+ str_or e "_none_" +:+ nl +:+
      "**Admiral Role:** " +:+ adm +:+ nl +:+
      "**War Channel:** " +:+ war +:+ nl +:+
      "**Log Channel:** " +:+ log).

(** [SetupView.save] *)
Definition save (interaction : Interaction) : M ViewState unit :=
  s <- get ;;
  let v := self s in
  allowed <- lift_result (ids_of (rs_values (allowed_select v))) ;;
  excluded <- lift_result (ids_of (rs_values (excluded_select v))) ;;
  admiral_role_id <- lift_result (optional_choice (rs_values (admiral_select v))) ;;
  war_channel_id <- lift_result (optional_choice (cs_values (war_select v))) ;;
  match cs_values (log_select v) with
  | [] => in_world (send_message interaction msg_select_log true)
  | log_val :: _ =>
      log_channel_id <- lift_result (int_of log_val) ;;
      updated_at <- in_world time_now ;;
      let new_cfg :=
        new_cfg_of allowed excluded admiral_role_id war_channel_id log_channel_id
          (user_id (inter_user interaction)) updated_at in
      in_world (save_cfg (guild_id (view_guild v)) new_cfg) ;;;
      summary <- lift_result
        (save_summary (view_guild v) allowed excluded admiral_role_id
           war_channel_id log_channel_id) ;;
      in_world (edit_message_no_view interaction
                  ("✅ **Configuration saved.**" +:+ nl +:+ summary)) ;;;
      in_world (log_action (view_guild v) new_cfg
                  ("🛠️ Configuration updated by "
                     +:+ user_mention (inter_user interaction) +:+ "." +:+ nl +:+ summary)
                  None)
  end.

(** [SetupView.cancel] *)
Definition cancel (interaction : Interaction) : M ViewState unit :=
  in_world (edit_message_no_view interaction msg_canceled).

(** The user submits a selection on one of the five pickers: the library
    stores the submitted values on the component, then runs the
    component's [callback], which only acknowledges. *)
Inductive Picker := PAllowed | PExcluded | PAdmiral | PWar | PLog.

Definition set_values (p : Picker) (vals : list optval) (v : SetupView) : SetupView :=
  {| view_guild := view_guild v; view_cfg := view_cfg v;
     view_invoker := view_invoker v; view_timeout := view_timeout v;
     allowed_select :=
       match p with PAllowed => rs_with_values (allowed_select v) vals
                  | _ => allowed_select v end;
     excluded_select :=
       match p with PExcluded => rs_with_values (excluded_select v) vals
                  | _ => excluded_select v end;
     admiral_select :=
       match p with PAdmiral => rs_with_values (admiral_select v) vals
                  | _ => admiral_select v end;
     war_select :=
       match p with PWar => cs_with_values (war_select v) vals
                  | _ => war_select v end;
     log_select :=
       match p with PLog => cs_with_values (log_select v) vals
                  | _ => log_select v end |}.

Definition select_callback (p : Picker) (vals : list optval)
    (interaction : Interaction) : M ViewState unit :=
  s <- get ;;
  put {| self := set_values p vals (self s); world := world s |} ;;;
  in_world (emit (ResponseDefer (inter_id interaction) true)).

(** ** Commands *)

Definition msg_admin_only : string := "Admin only.".
Definition msg_use_in_server : string := "Use in a server.".
Definition msg_setup_panel : string :=
  "🔧 **Server Setup**" +:+ nl +:+
  "Choose Allowed/Excluded Roles, **Admiral Role** (optional), War Channel (optional), and a **Log Channel** (required)." +:+ nl +:+
  "_Tip: Make the log channel private for staff only._".

(** The check installed by [admin_only()] *)
Definition admin_only (interaction : Interaction) : M World bool :=
  if is_administrator (inter_user interaction) then ret true
  else send_message interaction msg_admin_only true ;;; ret false.

(** [/setup], once [admin_only] has passed; the result is the panel that
    was sent with the answer. *)
Definition setup_cmd (interaction : Interaction) : M World (option SetupView) :=
  match inter_guild interaction with
  | None => send_message interaction msg_not_in_server true ;;; ret None
  | Some guild =>
      cfg <- load_cfg (guild_id guild) ;;
      view <- lift_result (new_SetupView guild cfg (inter_user interaction)) ;;
      send_message interaction msg_setup_panel true ;;;
      ret (Some view)
  end.

(** The check installed by [require_configured_access()] *)
Definition require_configured_access (interaction : Interaction) : M World bool :=
  match inter_guild interaction with
  | None => send_message interaction msg_use_in_server true ;;; ret false
  | Some guild =>
      cfg <- load_cfg (guild_id guild) ;;
      verdict <- lift_result (can_use_commands (inter_user interaction) cfg) ;;
      if negb verdict.1
      then send_message interaction verdict.2 true ;;; ret false
      else ret true
  end.

Definition timestamp_tag (ts : Z) : string := "<t:" +:+ pretty ts +:+ ":F>".

(** [after_modal_submit] of [/roe] *)
Definition roe_after_modal_submit (interaction : Interaction) (offender : User)
    (target_role : Role) (guild : Guild) (cfg : pyval)
    (modal_inter : Interaction) (reason_text : string) : M World unit :=
  ts <- time_now ;;
  let embed :=
    {| embed_title := "🚨 RoE Violation Report";
       embed_color := Red;
       embed_description :=
         "**Offender:** " +:+ user_mention offender +:+ nl +:+
         "**Reported by:** " +:+ user_mention (inter_user interaction) +:+ nl +:+
         "**Details:** " +:+ reason_text +:+ nl +:+
         "**When:** " +:+ timestamp_tag ts |} in
  let content := role_mention target_role in
  let here := inter_channel interaction in
  url <- channel_send here (Some content) (Some embed) roles_users_only ;;
  send_message modal_inter
    ("Posted in " +:+ channel_mention here +:+ " (jump: " +:+ url +:+ ").") true ;;;
  log_action guild cfg
    ("RoE reported by " +:+ user_mention (inter_user interaction) +:+
     " against " +:+ user_mention offender +:+
     " | Pinged " +:+ role_mention target_role +:+
     " in " +:+ channel_mention here +:+ ".")
    None.

(** [/roe], once [require_configured_access] has passed: opens the modal
    and hands it the callback to run on submission. *)
Definition roe (interaction : Interaction) (offender : User) (target_role : Role)
    : M World (Interaction → string → M World unit) :=
  match inter_guild interaction with
  | None => throw AttributeError
  | Some guild =>
      cfg <- load_cfg (guild_id guild) ;;
      emit (ResponseModal (inter_id interaction)) ;;;
      ret (roe_after_modal_submit interaction offender target_role guild cfg)
  end.

(** [after_modal_submit] of [/declare] *)
Definition declare_after_modal_submit (interaction : Interaction) (target : Role)
    (guild : Guild) (cfg : pyval) (admiral_role : option Role)
    (war_channel : option Channel)
    (modal_inter : Interaction) (reason_text : string) : M World unit :=
  ts <- time_now ;;
  let embed :=
    {| embed_title := "🛡️ War Declaration";
       embed_color := Orange;
       embed_description :=
         "**Declaring Against:** " +:+ role_mention target +:+ nl +:+
         "**Declared by:** " +:+ user_mention (inter_user interaction) +:+ nl +:+
         "**Reason:** " +:+ reason_text +:+ nl +:+
         "**When:** " +:+ timestamp_tag ts |} in
  let mentions :=
    role_mention target
      :: match admiral_role with Some r => [role_mention r] | None => [] end in
  let content :=
    match mentions with [] => None | _ => Some (join " " mentions) end in
  let here := inter_channel interaction in
  here_url <- channel_send here content (Some embed) roles_users_only ;;
  let link (c : Channel) (url : string) :=
    channel_mention c +:+ " (jump: " +:+ url +:+ ")" in
  msg_links <-
    match war_channel with
    | Some wc =>
        if channel_is_text wc then
          there_url <- channel_send wc content (Some embed) roles_users_only ;;
          ret [link here here_url; link wc there_url]
        else ret [link here here_url]
    | None => ret [link here here_url]
    end ;;
  send_message modal_inter ("Posted: " +:+ join " and " msg_links) true ;;;
  log_action guild cfg
    ("War declared by " +:+ user_mention (inter_user interaction) +:+
     " vs " +:+ role_mention target +:+ ". " +:+
     "Pings: " +:+ str_or (default "" content) "none" +:+
     ". Posted to: " +:+ join ", " msg_links)
    None.

(** [/declare], once [require_configured_access] has passed. *)
Definition declare (interaction : Interaction) (target : Role)
    : M World (Interaction → string → M World unit) :=
  match inter_guild interaction with
  | None => throw AttributeError
  | Some guild =>
      cfg <- load_cfg (guild_id guild) ;;
      admiral_role_id <- lift_result (py_get cfg "admiral_role_id" PNone) ;;
      admiral_role <- lift_result
        (if truthy admiral_role_id then get_role guild admiral_role_id else Ok None) ;;
      war_channel_id <- lift_result (py_get cfg "war_channel_id" PNone) ;;
      war_channel <- lift_result
        (if truthy war_channel_id then get_channel guild war_channel_id else Ok None) ;;
      emit (ResponseModal (inter_id interaction)) ;;;
      ret (declare_after_modal_submit interaction target guild cfg
             admiral_role war_channel)
  end.

(** ** Vocabulary of the properties *)

(** Holding one of the listed roles. *)
Definition holds_any (m : MemberData) (ids : list Z) : Prop :=
  ∃ r, r ∈ member_roles m ∧ role_id r ∈ ids.

(** An outbound message that cannot ping everyone. *)
Definition no_everyone (e : Event) : Prop :=
  match e with
  | ChannelSend _ _ _ mentions => am_everyone mentions = false
  | _ => True
  end.

(** Events that neither touch the store nor ping everyone. *)
Definition harmless (e : Event) : Prop :=
  match e with
  | ChannelSend _ _ _ mentions => am_everyone mentions = false
  | FileWrite _ _ => False
  | _ => True
  end.

Definition is_response (e : Event) : Prop :=
  match e with ResponseSend _ _ _ => True | _ => False end.

Definition is_file_write (e : Event) : Prop :=
  match e with FileWrite _ _ => True | _ => False end.

Definition is_channel_send (e : Event) : Prop :=
  match e with ChannelSend _ _ _ _ => True | _ => False end.

(** [edit_message(..., view=None)] takes the panel's components away. *)
Definition closes_panel (e : Event) : Prop :=
  match e with ResponseEdit _ _ removed => removed = true | _ => False end.

(** Submitted values that name ids, as every option of the two role
    pickers does. *)
Definition ids_only (values : list optval) : Prop :=
  Forall (λ v, is_none v = false) values.

(** The world right after [save_cfg guild cfg] succeeded in [w]. *)
Definition written (w : World) (guild : Z) (cfg : pyval) : World :=
  with_trace (with_files w (<[guild := dumps cfg]> (files w)))
             (trace w ++ [FileWrite guild cfg]).

(** States whose trace can be extended: the world itself, and a panel
    together with the world. *)
Class Traced (S : Type) := {
  extend : S → list Event → S;
  extend_nil : ∀ s, extend s [] = s;
  extend_app : ∀ s a b, extend (extend s a) b = extend s (a ++ b)
}.

#[global] Program Instance World_traced : Traced World := {|
  extend w added := with_trace w (trace w ++ added)
|}.
Next Obligation. intros []. unfold with_trace; simpl. by rewrite app_nil_r. Qed.
Next Obligation. intros w a b. unfold with_trace; simpl. by rewrite app_assoc. Qed.

#[global] Program Instance ViewState_traced : Traced ViewState := {|
  extend s added := {| self := self s; world := extend (world s) added |}
|}.
Next Obligation. intros [v w]. cbn [self world]. by rewrite extend_nil. Qed.
Next Obligation. intros [v w] a b. cbn [self world]. by rewrite extend_app. Qed.

(** [m] changes nothing of the state but the trace, to which it appends
    events that satisfy [P]. *)
Definition only_emits (P : Event → Prop) {S} `{Traced S} {A} (m : M S A) : Prop :=
  ∀ s, ∃ added, (m s).2 = extend s added ∧ Forall P added.

(** The events [m] adds to the trace all satisfy [P]. *)
Definition appends {S A} (tr : S → list Event) (P : Event → Prop) (m : M S A) : Prop :=
  ∀ s, ∃ added, tr (m s).2 = tr s ++ added ∧ Forall P added.

#[global] Instance Picker_eq_dec : EqDecision Picker.
Proof. solve_decision. Defined.

(** A panel session: the submissions made on the pickers, oldest first. *)
Definition Submission : Type := Picker * list optval * Interaction.

Fixpoint run_session (session : list Submission) (s : ViewState) : ViewState :=
  match session with
  | [] => s
  | (p, vals, i) :: rest => run_session rest (select_callback p vals i s).2
  end.

(** The values of the latest submission on picker [p], [cur] if there is none. *)
Fixpoint latest_from (cur : list optval) (p : Picker) (session : list Submission)
    : list optval :=
  match session with
  | [] => cur
  | (q, vals, _) :: rest => latest_from (if decide (q = p) then vals else cur) p rest
  end.

Definition latest (p : Picker) (session : list Submission) : list optval :=
  latest_from [] p session.

Definition untouched (p : Picker) (session : list Submission) : Prop :=
  Forall (λ sub : Submission, sub.1.1 ≠ p) session.

Definition values_of (p : Picker) (v : SetupView) : list optval :=
  match p with
  | PAllowed => rs_values (allowed_select v)
  | PExcluded => rs_values (excluded_select v)
  | PAdmiral => rs_values (admiral_select v)
  | PWar => cs_values (war_select v)
  | PLog => cs_values (log_select v)
  end.

(** The id a single-choice picker stands for: none when nothing was
    submitted and when the first value is ["none"]. *)
Definition chosen (values : list optval) : option Z :=
  match values with
  | OptId z :: _ => Some z
  | _ => None
  end.

(** ** [/config] *)

Definition msg_no_config : string :=
  "No configuration saved yet. Ask an admin to run `/setup`.".

(** The text [/config] answers with.  [py_str] is Python's [str()], which
    the f-string applies to the stored [updated_at] and [updated_by]. *)
Definition config_summary (py_str : pyval → string) (guild : Guild) (cfg : pyval)
    : result string :=
  let? admiral_role_id := py_get cfg "admiral_role_id" PNone in
  let? admiral_txt := admiral_text guild admiral_role_id in
  let? allowed := py_get cfg "allowed_role_ids" (PList []) in
  let? a := get_role_mentions guild allowed in
  let? excluded := py_get cfg "excluded_role_ids" (PList []) in
  let? e := get_role_mentions guild excluded in
  let? war_channel_id := py_get cfg "war_channel_id" PNone in
  let? war := get_channel_mention guild war_channel_id in
  let? log_channel_id := py_get cfg "log_channel_id" PNone in
  let? log := get_channel_mention guild log_channel_id in
  let? updated_at := py_get cfg "updated_at" (PInt 0) in
  let? updated_by := py_get cfg "updated_by" (PInt 0) in
  Ok ("**Allowed:** " +:+ str_or a "_none_" +:+ nl +:+
      "**Excluded:** " +:+ str_or e "_none_" +:+ nl +:+
      "**Admiral Role:** " +:+ admiral_txt +:+ nl +:+
      "**War Channel:** " +:+ war +:+ nl +:+
      "**Log Channel:** " +:+ log +:+ nl +:+
      "_Updated: <t:" +:+ py_str updated_at +:+ ":R> by <@"
        +:+ py_str updated_by +:+ ">_").

(** [config_show] *)
Definition config_show (py_str : pyval → string) (interaction : Interaction)
    : M World unit :=
  match inter_guild interaction with
  | None => send_message interaction msg_not_in_server true
  | Some guild =>
      cfg <- load_cfg (guild_id guild) ;;
      if negb (truthy cfg) then send_message interaction msg_no_config true
      else
        summary <- lift_result (config_summary py_str guild cfg) ;;
        send_message interaction summary true
  end.

(** ** More vocabulary *)

(** [r1] is listed before [r2] by a role picker. *)
Definition ranks_above (r1 r2 : Role) : Prop :=
  role_position r2 ≤ role_position r1.

(** The role an id stands for in the guild, if any. *)
Definition role_of (guild : Guild) (z : Z) : option Role :=
  find (λ r, role_id r =? z) (guild_roles guild).

(** The text channel an id stands for: the first channel of the guild with
    that id, when it is a text channel and the id is not zero. *)
Definition text_channel_of (guild : Guild) (z : Z) : option Channel :=
  if z =? 0 then None
  else match find (λ c, channel_id c =? z) (guild_channels guild) with
       | Some c => if channel_is_text c then Some c else None
       | None => None
       end.

(** An answer only the invoker sees. *)
Definition private_answer (e : Event) : Prop :=
  match e with ResponseSend _ _ ephemeral => ephemeral = true | _ => False end.

Definition is_modal (e : Event) : Prop :=
  match e with ResponseModal _ => True | _ => False end.

(** The role a stored admiral id stands for when [/declare] runs. *)
Definition admiral_of (guild : Guild) (adm : option Z) : option Role :=
  match adm with
  | Some z => if z =? 0 then None else role_of guild z
  | None => None
  end.

(** The channel (of any kind) a stored war channel id stands for when
    [/declare] runs. *)
Definition war_channel_of (guild : Guild) (war : option Z) : option Channel :=
  match war with
  | Some z =>
      if z =? 0 then None
      else find (λ c, channel_id c =? z) (guild_channels guild)
  | None => None
  end.

Definition is_defer (e : Event) : Prop :=
  match e with ResponseDefer _ _ => True | _ => False end.

(** All options of a panel, over its five pickers. *)
Definition all_options (v : SetupView) : list SelectOption :=
  rs_options (allowed_select v) ++ rs_options (excluded_select v)
  ++ rs_options (admiral_select v) ++ cs_options (war_select v)
  ++ cs_options (log_select v).

End Bot.

(** * A small community, used to run the model on concrete inputs *)
Module Example.

(** The identity codec: the file holds the value itself. *)
Definition id_codec : JsonCodec :=
  {| Text := pyval; dumps := λ v, v; loads := Some |}.

Definition everyone : Role :=
  {| role_id := 1; role_name := "@everyone"; role_position := 0;
     role_is_default := true; role_mention := "@everyone" |}.
Definition pilot : Role :=
  {| role_id := 10; role_name := "Pilot"; role_position := 2;
     role_is_default := false; role_mention := "<@&10>" |}.
Definition banned : Role :=
  {| role_id := 20; role_name := "Banned"; role_position := 1;
     role_is_default := false; role_mention := "<@&20>" |}.

Definition log_channel : Channel :=
  {| channel_id := 500; channel_name := "staff-log"; channel_is_text := true;
     channel_mention := "<#500>" |}.
Definition war_room : Channel :=
  {| channel_id := 600; channel_name := "war"; channel_is_text := true;
     channel_mention := "<#600>" |}.
Definition voice : Channel :=
  {| channel_id := 700; channel_name := "Voice"; channel_is_text := false;
     channel_mention := "<#700>" |}.

Definition guild : Guild :=
  {| guild_id := 1; guild_roles := [everyone; banned; pilot];
     guild_channels := [log_channel; war_room; voice] |}.

Definition admin : User :=
  {| user_id := 7; user_mention := "<@7>";
     user_member := Some {| member_roles := [everyone]; member_administrator := true |} |}.
Definition both : MemberData :=
  {| member_roles := [everyone; pilot; banned]; member_administrator := false |}.
Definition grounded : User :=
  {| user_id := 8; user_mention := "<@8>"; user_member := Some both |}.
Definition stranger : User :=
  {| user_id := 9; user_mention := "<@9>";
     user_member := Some {| member_roles := [everyone]; member_administrator := false |} |}.

Definition cfg_dict : gmap string pyval :=
  list_to_map
    [ ("allowed_role_ids", PList [PInt 10]);
      ("excluded_role_ids", PList [PInt 20]);
      ("admiral_role_id", PInt 10);
      ("war_channel_id", PInt 600);
      ("log_channel_id", PInt 500) ].

Definition unconfigured : gmap string pyval :=
  list_to_map [ ("excluded_role_ids", PList [PInt 20]) ].

Definition stale_log : gmap string pyval :=
  list_to_map [ ("log_channel_id", PInt 700) ].

Definition calm : @World id_codec :=
  {| files := {[ 1 := PDict cfg_dict ]}; trace := []; clock := 1700000000;
     disk_ok := λ _, true; net_ok := λ _, true; jump_url := λ _ _, "https://example/1" |}.

Definition empty_disk : @World id_codec :=
  {| files := ∅; trace := []; clock := 1700000000;
     disk_ok := λ _, true; net_ok := λ _, true; jump_url := λ _ _, "https://example/1" |}.

Definition full_disk : @World id_codec :=
  {| files := {[ 1 := PDict cfg_dict ]}; trace := []; clock := 1700000000;
     disk_ok := λ _, false; net_ok := λ _, true; jump_url := λ _ _, "https://example/1" |}.

Definition click (u : User) : Interaction :=
  {| inter_id := 42; inter_user := u; inter_guild := Some guild;
     inter_channel := war_room |}.

(** The panel object with the pickers built on the stored configuration. *)
Definition panel : SetupView :=
  ltac:(let r := eval vm_compute in (panel_selects guild (PDict cfg_dict) admin) in
        match r with Ok ?v => exact v end).

Definition opened : @ViewState id_codec := {| self := panel; world := calm |}.

(** A guild whose one role has a name of a hundred letters of two bytes
    each, and the pickers built for it. *)
Definition verbose : Role :=
  {| role_id := 30; role_name := String.concat EmptyString (replicate 100 "é"); role_position := 1;
     role_is_default := false; role_mention := "<@&30>" |}.

Definition wordy : Guild :=
  {| guild_id := 2; guild_roles := [verbose]; guild_channels := [] |}.

Definition wordy_panel : SetupView :=
  ltac:(let r := eval vm_compute in (panel_selects wordy empty_cfg admin) in
        match r with Ok ?v => exact v end).

Definition only_log : list Submission := [ (PLog, [OptId 500], click admin) ].
Definition none_then_log : list Submission :=
  [ (PAdmiral, [OptNone], click admin); (PLog, [OptId 500], click admin) ].

(** More of the example community. *)

Definition outsider : User :=
  {| user_id := 11; user_mention := "<@11>"; user_member := None |}.

(** A guild whose file holds a JSON array instead of an object. *)
Definition array_on_disk : @World id_codec :=
  {| files := {[ 1 := PList [PInt 10] ]}; trace := []; clock := 1700000000;
     disk_ok := λ _, true; net_ok := λ _, true; jump_url := λ _ _, "https://example/1" |}.

(** The store works, the platform takes no call. *)
Definition offline : @World id_codec :=
  {| files := {[ 1 := PDict cfg_dict ]}; trace := []; clock := 1700000000;
     disk_ok := λ _, true; net_ok := λ _, false; jump_url := λ _ _, "https://example/1" |}.

Definition with_log (channel : Z) : SetupView := set_values PLog [OptId channel] panel.

(** [str()] on the integers the example stores. *)
Definition show (v : pyval) : string :=
  match v with PInt z => pretty z | _ => "?" end.

End Example.


(** * Properties *)

Section Authorization.
Context `{JsonCodec}.

Lemma py_in_ids_int z ids :
  py_in_ids (PInt z) ids = Ok (bool_decide (z ∈ ids)).
Proof.
  unfold py_in_ids; cbn [hashable]. f_equal.
  induction ids as [|i ids IH].
  - symmetry. rewrite bool_decide_eq_false. apply not_elem_of_nil.
  - change (existsb (λ i, py_eq_int i (PInt z)) (i :: ids))
      with ((z =? i) || existsb (λ i, py_eq_int i (PInt z)) ids)%bool.
    rewrite IH. destruct (Z.eqb_spec z i) as [->|Hne]; cbn [orb].
    + symmetry. rewrite bool_decide_eq_true. left.
    + apply bool_decide_ext. rewrite elem_of_cons. tauto.
Qed.

Lemma py_any_ints (member_ids ids : list Z) :
  py_any (λ rid, py_in_ids rid member_ids) (PInt <$> ids)
  = Ok (bool_decide (Exists (λ z, z ∈ member_ids) ids)).
Proof.
  induction ids as [|z ids IH]; cbn [fmap list_fmap py_any].
  - reflexivity.
  - rewrite py_in_ids_int. cbn [rbind].
    destruct (decide (z ∈ member_ids)) as [Hin|Hin].
    + rewrite (bool_decide_eq_true_2 _ Hin). f_equal. symmetry.
      apply bool_decide_eq_true_2. by left.
    + rewrite (bool_decide_eq_false_2 _ Hin), IH. f_equal.
      apply bool_decide_ext. rewrite Exists_cons. tauto.
Qed.

Lemma member_has_any_role_ints u m ids :
  user_member u = Some m →
  holds_any m ids →
  member_has_any_role u (PList (PInt <$> ids)) = Ok true.
Proof.
  intros Hm (r & Hr & Hid). unfold member_has_any_role. rewrite Hm.
  destruct ids as [|z ids]; [by apply elem_of_nil in Hid |].
  cbn [fmap list_fmap truthy negb py_iter rbind].
  rewrite (py_any_ints (role_id <$> member_roles m) (z :: ids)). f_equal.
  apply bool_decide_eq_true_2, Exists_exists. exists (role_id r).
  split; [done |]. apply list_elem_of_fmap. by exists r.
Qed.

Lemma can_use_commands_falsy_allowed u d :
  truthy (default (PList []) (d !! "allowed_role_ids")) = false →
  can_use_commands u (PDict d) = Ok (false, msg_not_configured).
Proof. intros Hf. unfold can_use_commands; simpl. by rewrite Hf. Qed.

(** C1: when the allowed list is not empty and the member's roles meet both
    the allowed and the excluded list, [can_use_commands] denies with the
    excluded reason. *)
Theorem exclusion_takes_precedence (u : User) (m : MemberData) (d : gmap string pyval)
    (allowed excluded : list Z) :
  user_member u = Some m →
  d !! "allowed_role_ids" = Some (PList (PInt <$> allowed)) →
  d !! "excluded_role_ids" = Some (PList (PInt <$> excluded)) →
  allowed ≠ [] →
  holds_any m allowed →
  holds_any m excluded →
  can_use_commands u (PDict d) = Ok (false, msg_excluded).
Proof.
  intros Hm Ha He Hne Hha Hhe. unfold can_use_commands; simpl.
  rewrite Ha, He; simpl.
  assert (Hex : excluded ≠ []).
  { destruct Hhe as (r & _ & Hr). intros ->. by apply elem_of_nil in Hr. }
  destruct allowed as [|a allowed]; [done |].
  destruct excluded as [|e excluded]; [done |].
  simpl truthy. simpl negb. unfold is_member. rewrite Hm. cbn match.
  rewrite (member_has_any_role_ints u m (a :: allowed) Hm Hha).
  cbn [rbind negb].
  by rewrite (member_has_any_role_ints u m (e :: excluded) Hm Hhe).
Qed.

(** C2: with an empty allowed list (stored as such, or the key missing)
    every member, whatever roles they hold, and every plain user is denied
    with the not-configured reason. *)
Theorem empty_allowed_denies_everyone (u : User) (d : gmap string pyval) :
  default (PList []) (d !! "allowed_role_ids") = PList [] →
  can_use_commands u (PDict d) = Ok (false, msg_not_configured).
Proof. intros Hd. apply can_use_commands_falsy_allowed. by rewrite Hd. Qed.

(** C10: a missing file, or one whose contents do not parse, loads as the
    empty config without an exception and without touching the world; the
    empty config denies everyone with the not-configured reason; and so the
    access check of a privileged command in that guild answers privately
    with that reason and returns [False] (or raises because the platform
    did not take the answer). *)
Theorem unreadable_store_denies_all (guild : Z) (w : World) :
  (files w !! guild = None ∨ ∃ text, files w !! guild = Some text ∧ loads text = None) →
  load_cfg guild w = (Ok empty_cfg, w)
  ∧ (∀ u, can_use_commands u empty_cfg = Ok (false, msg_not_configured))
  ∧ (∀ i g, inter_guild i = Some g → guild_id g = guild →
       require_configured_access i w
       = if net_ok w (ResponseSend (inter_id i) msg_not_configured true)
         then (Ok false, extend w [ResponseSend (inter_id i) msg_not_configured true])
         else (Raise HTTPException, w)).
Proof.
  intros Hfile.
  assert (Hload : load_cfg guild w = (Ok empty_cfg, w)).
  { unfold load_cfg, bind, get, ret.
    destruct Hfile as [-> | (text & -> & ->)]; reflexivity. }
  split_and!; [done | intros u; by apply can_use_commands_falsy_allowed |].
  intros i g Hg <-. unfold require_configured_access. rewrite Hg.
  unfold bind at 1. rewrite Hload.
  assert (Hdeny : can_use_commands (inter_user i) empty_cfg
                  = Ok (false, msg_not_configured))
    by by apply can_use_commands_falsy_allowed.
  cbv [bind lift_result send_message emit get put throw ret].
  rewrite Hdeny. cbn [fst snd negb].
  by destruct (net_ok w (ResponseSend (inter_id i) msg_not_configured true)).
Qed.

End Authorization.

Section Effects.
Context `{JsonCodec}.

Lemma with_trace_nil (w : World) : with_trace w (trace w ++ []) = w.
Proof. exact (extend_nil w). Qed.

Section Combinators.
Context (P : Event → Prop) {S : Type} `{Traced S}.

Lemma only_emits_ret {A} (a : A) : only_emits P (@ret S A a).
Proof. intros s. exists []. split; [symmetry; apply extend_nil | constructor]. Qed.

Lemma only_emits_throw {A} e : only_emits P (@throw S A e).
Proof. intros s. exists []. split; [symmetry; apply extend_nil | constructor]. Qed.

Lemma only_emits_lift_result {A} (r : result A) : only_emits P (@lift_result S A r).
Proof. intros s. exists []. split; [symmetry; apply extend_nil | constructor]. Qed.

Lemma only_emits_bind {A B} (m : M S A) (k : A → M S B) :
  only_emits P m → (∀ a, only_emits P (k a)) → only_emits P (bind m k).
Proof.
  intros Hm Hk s. unfold bind. destruct (Hm s) as (a1 & E1 & F1).
  destruct (m s) as [[a|e] s1]; simpl in E1; subst s1.
  - destruct (Hk a (extend s a1)) as (a2 & E2 & F2).
    exists (a1 ++ a2)%list. rewrite E2, extend_app. split; [done | by apply Forall_app].
  - by exists a1.
Qed.

Lemma only_emits_get_bind {B} (k : S → M S B) :
  (∀ s, only_emits P (k s)) → only_emits P (bind get k).
Proof. intros Hk s. unfold bind, get. apply Hk. Qed.

End Combinators.

Lemma only_emits_in_world P {A} (m : M World A) :
  only_emits P m → only_emits P (in_world m).
Proof.
  intros Hm s. destruct (Hm (world s)) as (added & E & F).
  exists added. split; [| done]. unfold in_world.
  destruct (m (world s)) as [r w']. simpl in *. by rewrite E.
Qed.

Lemma only_emits_emit (P : Event → Prop) e : P e → only_emits P (emit e).
Proof.
  intros He w. unfold emit, bind, get, put, throw.
  destruct (net_ok w e); simpl.
  - exists [e]. split; [done | by constructor].
  - exists []. split; [symmetry; apply with_trace_nil | constructor].
Qed.

Lemma only_emits_channel_send (P : Event → Prop) c content embed mentions :
  P (ChannelSend (channel_id c) content embed mentions) →
  only_emits P (channel_send c content embed mentions).
Proof.
  intros He. unfold channel_send. apply only_emits_get_bind; intros w.
  apply only_emits_bind; [by apply only_emits_emit | intros _; apply only_emits_ret].
Qed.

Lemma only_emits_time_now P : only_emits P time_now.
Proof. apply only_emits_get_bind; intros w. apply only_emits_ret. Qed.

Lemma only_emits_load_cfg P guild : only_emits P (load_cfg guild).
Proof.
  apply only_emits_get_bind; intros w.
  destruct (files w !! guild) as [text|]; [destruct (loads text) |];
    apply only_emits_ret.
Qed.

Lemma only_emits_log_action (P : Event → Prop) guild cfg content embed :
  (∀ ch, P (ChannelSend ch (Some content) embed roles_users_only)) →
  only_emits P (log_action guild cfg content embed).
Proof.
  intros He. unfold log_action.
  apply only_emits_bind; [apply only_emits_lift_result | intros id].
  destruct (negb (truthy id)); [apply only_emits_ret |].
  apply only_emits_bind; [apply only_emits_lift_result | intros [c|]];
    [| apply only_emits_ret].
  destruct (channel_is_text c); [| apply only_emits_ret].
  apply only_emits_bind; [by apply only_emits_channel_send | intros _; apply only_emits_ret].
Qed.

End Effects.

Section Dispatcher.
Context `{JsonCodec}.

Lemma harmless_no_everyone e : harmless e → no_everyone e.
Proof. by destruct e. Qed.

Lemma only_emits_roe_after_modal_submit i offender target guild cfg mi reason :
  only_emits harmless (roe_after_modal_submit i offender target guild cfg mi reason).
Proof.
  unfold roe_after_modal_submit.
  apply only_emits_bind; [apply only_emits_time_now | intros ts].
  apply only_emits_bind; [by apply only_emits_channel_send | intros url].
  apply only_emits_bind; [by apply only_emits_emit | intros _].
  by apply only_emits_log_action.
Qed.

Lemma only_emits_declare_after_modal_submit i target guild cfg adm war mi reason :
  only_emits harmless (declare_after_modal_submit i target guild cfg adm war mi reason).
Proof.
  unfold declare_after_modal_submit.
  apply only_emits_bind; [apply only_emits_time_now | intros ts].
  apply only_emits_bind; [by apply only_emits_channel_send | intros here_url].
  apply only_emits_bind.
  - destruct war as [wc|]; [| apply only_emits_ret].
    destruct (channel_is_text wc); [| apply only_emits_ret].
    apply only_emits_bind; [by apply only_emits_channel_send | intros there_url].
    apply only_emits_ret.
  - intros links.
    apply only_emits_bind; [by apply only_emits_emit | intros _].
    by apply only_emits_log_action.
Qed.

(** C7: when the log channel id is unset (key missing or null), or is an id
    that no text channel of the guild carries, [log_action] returns normally
    and leaves the world as it was: nothing is sent, nothing is raised. *)
Theorem log_action_missing_destination (guild : Guild) (d : gmap string pyval)
    (content : string) (embed : option Embed) (w : World) :
  (d !! "log_channel_id" = None
   ∨ d !! "log_channel_id" = Some PNone
   ∨ ∃ z, d !! "log_channel_id" = Some (PInt z)
          ∧ ∀ c, c ∈ guild_channels guild → channel_id c = z → channel_is_text c = false) →
  log_action guild (PDict d) content embed w = (Ok tt, w).
Proof.
  intros Hdest. unfold log_action, bind, lift_result, py_get, ret.
  destruct Hdest as [-> | [-> | (z & -> & Hstale)]]; [done | done |].
  unfold default; cbn [from_option id truthy].
  destruct (Z.eqb_spec z 0) as [-> | Hz]; [done |].
  cbn [negb get_channel hashable].
  destruct (find _ (guild_channels guild)) as [c|] eqn:Hfind; [| done].
  apply find_some in Hfind as [Hin Heq].
  cbn [py_eq_int] in Heq. apply Z.eqb_eq in Heq.
  rewrite (Hstale c); [done | by apply list_elem_of_In | done].
Qed.

End Dispatcher.

Section Wizard.
Context `{JsonCodec}.

Lemma ids_of_py_map values : ids_of values = py_map int_of values.
Proof. by destruct values. Qed.

Lemma bind_get_run {S B} (k : S → M S B) s : bind get k s = k s s.
Proof. reflexivity. Qed.

Lemma optional_choice_total values : ∃ o, optional_choice values = Ok o.
Proof. destruct values as [|[|z] ?]; by eexists. Qed.

(** Enter the body of [save] in the state [{| self := v; world := w |}]. *)
Ltac enter_save :=
  unfold save; rewrite bind_get_run; cbn [self world]; rewrite !ids_of_py_map.

(** What [save] does once the store has been written. *)
Lemma only_emits_after_write v i allowed excluded adm war log_id cfg :
  only_emits harmless
    (bind (lift_result (save_summary (view_guild v) allowed excluded adm war log_id))
       (λ summary,
          bind (in_world (edit_message_no_view i
                            ("✅ **Configuration saved.**" +:+ nl +:+ summary)))
            (λ _, in_world
                    (log_action (view_guild v) cfg
                       ("🛠️ Configuration updated by "
                          +:+ user_mention (inter_user i) +:+ "." +:+ nl +:+ summary)
                       None)))).
Proof.
  apply only_emits_bind; [apply only_emits_lift_result | intros summary].
  apply only_emits_bind; [by apply only_emits_in_world, only_emits_emit | intros _].
  by apply only_emits_in_world, only_emits_log_action.
Qed.

Lemma save_commits i v w allowed excluded adm war log_val rest log_id :
  py_map int_of (rs_values (allowed_select v)) = Ok allowed →
  py_map int_of (rs_values (excluded_select v)) = Ok excluded →
  optional_choice (rs_values (admiral_select v)) = Ok adm →
  optional_choice (cs_values (war_select v)) = Ok war →
  cs_values (log_select v) = log_val :: rest →
  int_of log_val = Ok log_id →
  disk_ok w (guild_id (view_guild v)) = true →
  let cfg := new_cfg_of allowed excluded adm war log_id
               (user_id (inter_user i)) (clock w) in
  ∃ added,
    (save i {| self := v; world := w |}).2
    = extend {| self := v; world := written w (guild_id (view_guild v)) cfg |} added
    ∧ Forall harmless added.
Proof.
  intros Ha He Hadm Hwar Hlog Hid Hdisk cfg.
  enter_save. rewrite Ha, He, Hadm, Hwar, Hlog, Hid.
  do 5 (unfold bind at 1, lift_result at 1).
  unfold bind at 1. unfold in_world at 1, time_now, bind at 1, get, ret. cbn [world self].
  unfold bind at 1. unfold in_world at 1, save_cfg, bind at 1, get, put. cbn [world self].
  rewrite Hdisk.
  apply only_emits_after_write.
Qed.

Lemma save_shape i s :
  (∃ added, (save i s).2 = extend s added ∧ Forall is_response added)
  ∨ (∃ cfg added,
       disk_ok (world s) (guild_id (view_guild (self s))) = true
       ∧ (save i s).2
         = extend {| self := self s;
                     world := written (world s) (guild_id (view_guild (self s))) cfg |}
                  added
       ∧ Forall harmless added).
Proof.
  destruct s as [v w]. cbn [self world].
  assert (Hstop : ∀ r, save i {| self := v; world := w |} = (r, {| self := v; world := w |}) →
            ∃ added, (save i {| self := v; world := w |}).2
                     = extend {| self := v; world := w |} added
                     ∧ Forall is_response added).
  { intros r ->. exists []. split; [symmetry; apply extend_nil | constructor]. }
  destruct (optional_choice_total (rs_values (admiral_select v))) as (adm & Hadm).
  destruct (optional_choice_total (cs_values (war_select v))) as (war & Hwar).
  destruct (py_map int_of (rs_values (allowed_select v))) as [allowed|e] eqn:Ha;
    [| left; apply (Hstop (Raise e)); enter_save; by rewrite Ha].
  destruct (py_map int_of (rs_values (excluded_select v))) as [excluded|e] eqn:He;
    [| left; apply (Hstop (Raise e)); enter_save; by rewrite Ha, He].
  destruct (cs_values (log_select v)) as [|log_val rest] eqn:Hlog.
  { left. enter_save. rewrite Ha, He, Hadm, Hwar, Hlog.
    apply (only_emits_in_world is_response), only_emits_emit. exact I. }
  destruct (int_of log_val) as [log_id|e] eqn:Hid;
    [| left; apply (Hstop (Raise e)); enter_save;
       by rewrite Ha, He, Hadm, Hwar, Hlog, Hid].
  destruct (disk_ok w (guild_id (view_guild v))) eqn:Hdisk.
  - right.
    destruct (save_commits i v w allowed excluded adm war log_val rest log_id)
      as (added & E & F); try done.
    by eexists _, added.
  - left. apply (Hstop (Raise OSError)). enter_save.
    rewrite Ha, He, Hadm, Hwar, Hlog, Hid.
    cbv [bind lift_result in_world time_now save_cfg get ret put throw self world].
    by rewrite Hdisk.
Qed.

Lemma py_map_int_of_ids values :
  ids_only values → ∃ ids, py_map int_of values = Ok ids.
Proof.
  induction 1 as [|v values Hv _ (ids & IH)]; [by exists [] |].
  destruct v as [|z]; [done |]. exists (z :: ids). cbn [py_map int_of rbind].
  by rewrite IH.
Qed.

Lemma save_no_log_channel_run i v w :
  cs_values (log_select v) = [] →
  (∃ e, save i {| self := v; world := w |} = (Raise e, {| self := v; world := w |})
        ∧ (py_map int_of (rs_values (allowed_select v)) = Raise e
           ∨ py_map int_of (rs_values (excluded_select v)) = Raise e))
  ∨ save i {| self := v; world := w |}
    = in_world (send_message i msg_select_log true) {| self := v; world := w |}.
Proof.
  intros Hlog. enter_save. rewrite Hlog.
  destruct (optional_choice_total (rs_values (admiral_select v))) as (adm & ->).
  destruct (optional_choice_total (cs_values (war_select v))) as (war & ->).
  destruct (py_map int_of (rs_values (allowed_select v))) as [a|e];
    [| left; exists e; by split; [| left]].
  destruct (py_map int_of (rs_values (excluded_select v))) as [b|e];
    [| left; exists e; by split; [| right]].
  by right.
Qed.

(** C3: a save with no log channel selected writes nothing to the store,
    leaves the panel object (the draft) and the files as they were, emits
    no event that takes the panel away, and -- when the submitted role
    values are ids and the platform delivers the response -- answers the
    invoker privately with the log-channel notice and nothing else. *)
Theorem save_without_log_channel (i : Interaction) (s : ViewState) :
  cs_values (log_select (self s)) = [] →
  let notice := ResponseSend (inter_id i) msg_select_log true in
  ∃ added,
    (save i s).2 = extend s added
    ∧ self (save i s).2 = self s
    ∧ files (world (save i s).2) = files (world s)
    ∧ Forall (λ e, ¬ is_file_write e ∧ ¬ closes_panel e) added
    ∧ (ids_only (rs_values (allowed_select (self s))) →
       ids_only (rs_values (excluded_select (self s))) →
       net_ok (world s) notice = true →
       (save i s).1 = Ok tt ∧ added = [notice]).
Proof.
  intros Hlog notice. destruct s as [v w]. cbn [self world] in *.
  destruct (save_no_log_channel_run i v w Hlog) as [(e & -> & Hraise) | ->].
  - exists []. cbn [fst snd self world]. rewrite extend_nil.
    split_and!; [done | done | done | constructor |]. intros Hia Hie _.
    destruct (py_map_int_of_ids _ Hia) as (? & Hx).
    destruct (py_map_int_of_ids _ Hie) as (? & Hy).
    destruct Hraise; congruence.
  - unfold in_world, send_message, emit, bind, get, put, throw. cbn [world self].
    fold notice. destruct (net_ok w notice) eqn:Hnet; cbn [fst snd self world].
    + exists [notice]. split_and!; [done | done | done | | done].
      repeat constructor; by intros [].
    + exists []. rewrite (extend_nil {| self := v; world := w |}).
      split_and!; [done | done | done | constructor | done].
Qed.

Lemma trace_extend_view (s : ViewState) added :
  trace (world (extend s added)) = trace (world s) ++ added.
Proof. reflexivity. Qed.

(** C6: in the events a save adds to the trace, an audit message (the only
    channel message [save] sends) comes after the store write of that save;
    and when the write to the guild's file fails, the save adds no channel
    message and leaves the files as they were. *)
Theorem save_write_precedes_audit (i : Interaction) (s : ViewState) :
  let guild := guild_id (view_guild (self s)) in
  ∃ added,
    trace (world (save i s).2) = trace (world s) ++ added
    ∧ (∀ k e, added !! k = Some e → is_channel_send e →
         ∃ j cfg, (j < k)%nat ∧ added !! j = Some (FileWrite guild cfg))
    ∧ (disk_ok (world s) guild = false →
         Forall (λ e, ¬ is_channel_send e) added
         ∧ files (world (save i s).2) = files (world s)).
Proof.
  intros guild.
  destruct (save_shape i s) as [(added & E & F) | (cfg & added & Hdisk & E & F)].
  - exists added. rewrite E. assert (Hno : Forall (λ e, ¬ is_channel_send e) added).
    { eapply Forall_impl; [exact F |]. intros []; cbn; tauto. }
    split_and!; [done | | done].
    intros k e Hk He. rewrite Forall_lookup in Hno. by destruct (Hno k e Hk).
  - exists (FileWrite guild cfg :: added). rewrite E. split_and!.
    + rewrite trace_extend_view. cbn [world]. unfold written, with_trace; cbn [trace].
      by rewrite <- app_assoc.
    + intros [|k] e Hk He; [by injection Hk as <- |].
      exists 0%nat, cfg. split; [lia | done].
    + intros Hfail. fold guild in Hdisk. congruence.
Qed.

Lemma only_emits_appends P {A} (m : M World A) :
  only_emits P m → appends trace P m.
Proof. intros Hm w. destruct (Hm w) as (added & -> & F). by exists added. Qed.

Lemma only_emits_weaken (P Q : Event → Prop) {A} (m : M World A) :
  (∀ e, P e → Q e) → only_emits P m → only_emits Q m.
Proof.
  intros HPQ Hm w. destruct (Hm w) as (added & E & F).
  exists added. split; [done | by eapply Forall_impl].
Qed.

(** C5: every event that the audit log, the two announcement callbacks and
    the panel's save add to the trace -- whatever content, targets and
    configuration they are given -- is either not a channel message or a
    channel message whose mention setting has everyone switched off. *)
Theorem no_message_pings_everyone :
  (∀ guild cfg content embed,
     appends trace no_everyone (log_action guild cfg content embed))
  ∧ (∀ i offender target guild cfg modal_inter reason,
       appends trace no_everyone
         (roe_after_modal_submit i offender target guild cfg modal_inter reason))
  ∧ (∀ i target guild cfg admiral war modal_inter reason,
       appends trace no_everyone
         (declare_after_modal_submit i target guild cfg admiral war modal_inter reason))
  ∧ (∀ i, appends (λ s, trace (world s)) no_everyone (save i)).
Proof.
  split_and!.
  - intros. apply only_emits_appends, only_emits_log_action. by intros.
  - intros. apply only_emits_appends.
    eapply only_emits_weaken; [apply harmless_no_everyone |].
    apply only_emits_roe_after_modal_submit.
  - intros. apply only_emits_appends.
    eapply only_emits_weaken; [apply harmless_no_everyone |].
    apply only_emits_declare_after_modal_submit.
  - intros i s.
    destruct (save_shape i s) as [(added & E & F) | (cfg & added & Hdisk & E & F)].
    + exists added. rewrite E. split; [done |].
      eapply Forall_impl; [exact F |]. intros []; cbn; tauto.
    + exists (FileWrite (guild_id (view_guild (self s))) cfg :: added). rewrite E. split.
      * rewrite trace_extend_view. cbn [world]. unfold written, with_trace; cbn [trace].
        by rewrite <- app_assoc.
      * constructor; [exact I |].
        eapply Forall_impl; [exact F | apply harmless_no_everyone].
Qed.

(** C8: [interaction_check] accepts exactly the user who opened the panel
    and members with the administrator permission, changing nothing; for
    anyone else it leaves the panel object and the files untouched and
    either answers privately with the locked notice and returns [False], or
    raises because the platform did not take the answer. *)
Theorem interaction_check_gate (i : Interaction) (s : ViewState) :
  let authorised :=
    (user_id (inter_user i) =? user_id (view_invoker (self s)))
    || is_administrator (inter_user i) in
  let notice := ResponseSend (inter_id i) msg_locked true in
  ((interaction_check i s).1 = Ok true ↔ authorised = true)
  ∧ (authorised = true → (interaction_check i s).2 = s)
  ∧ (authorised = false →
       self (interaction_check i s).2 = self s
       ∧ files (world (interaction_check i s).2) = files (world s)
       ∧ interaction_check i s
         = if net_ok (world s) notice
           then (Ok false, extend s [notice])
           else (Raise HTTPException, s)).
Proof.
  intros authorised notice. subst authorised. destruct s as [v w].
  unfold interaction_check. rewrite bind_get_run. cbn [self world].
  destruct (user_id (inter_user i) =? user_id (view_invoker v)); cbn [orb];
    [by split_and! |].
  destruct (is_administrator (inter_user i)); [by split_and! |].
  unfold in_world, send_message, emit, bind, get, put, throw, ret. cbn [world self].
  fold notice. destruct (net_ok w notice); cbn [fst snd self world]; by split_and!.
Qed.

Lemma select_callback_state p vals i s :
  ∃ added,
    (select_callback p vals i s).2
    = {| self := set_values p vals (self s); world := extend (world s) added |}.
Proof.
  cbv [select_callback bind get put in_world emit throw self world].
  destruct s as [v w].
  destruct (net_ok w (ResponseDefer (inter_id i) true)); cbn [snd self world].
  - by exists [ResponseDefer (inter_id i) true].
  - exists []. by rewrite extend_nil.
Qed.

Lemma values_of_set_values p q vals v :
  values_of p (set_values q vals v) = if decide (q = p) then vals else values_of p v.
Proof. by destruct p, q. Qed.

Lemma run_session_state session s :
  ∃ added v,
    run_session session s = {| self := v; world := extend (world s) added |}
    ∧ view_guild v = view_guild (self s)
    ∧ ∀ p, values_of p v = latest_from (values_of p (self s)) p session.
Proof.
  revert s. induction session as [|[[q vals] i] rest IH]; intros s.
  - exists [], (self s). rewrite extend_nil. by destruct s.
  - cbn [run_session]. destruct (select_callback_state q vals i s) as (a1 & ->).
    destruct (IH {| self := set_values q vals (self s); world := extend (world s) a1 |})
      as (a2 & v & -> & Hg & Hv).
    cbn [self world] in *. exists (a1 ++ a2), v. rewrite extend_app.
    split_and!; [done | done |]. intros p. rewrite Hv, values_of_set_values.
    reflexivity.
Qed.

Lemma latest_from_untouched cur p session :
  untouched p session → latest_from cur p session = cur.
Proof.
  induction 1 as [|[[q vals] i] rest Hq _ IH]; [done |].
  cbn [latest_from]. cbn in Hq. by rewrite decide_False.
Qed.

Lemma new_RolesSelect_values placeholder preselected max_values row sel :
  new_RolesSelect placeholder preselected max_values row = Ok sel →
  rs_values sel = [].
Proof.
  unfold new_RolesSelect. destruct (py_set _); cbn [rbind]; [| done].
  by intros [= <-].
Qed.

(** The pickers the constructor builds hold no submission. *)
Lemma panel_selects_fresh guild cfg invoker v :
  panel_selects guild cfg invoker = Ok v →
  view_guild v = guild ∧ ∀ p, values_of p v = [].
Proof.
  unfold panel_selects. intros Hv.
  repeat match type of Hv with
         | rbind ?r _ = _ =>
             let E := fresh "E" in
             destruct r eqn:E; cbn [rbind] in Hv; [| discriminate]
         end.
  injection Hv as <-. split; [done |].
  intros []; cbn [values_of allowed_select excluded_select admiral_select
                  war_select log_select rs_with_options cs_with_options
                  rs_values cs_values new_ChannelsSelect];
    try done; by eapply new_RolesSelect_values.
Qed.

Lemma py_map_int_of_OptId ids : py_map int_of (OptId <$> ids) = Ok ids.
Proof.
  induction ids as [|z ids IH]; [done |].
  cbn [fmap list_fmap py_map int_of rbind]. fold (fmap (M := list) OptId ids).
  by rewrite IH.
Qed.

Lemma optional_choice_chosen values : optional_choice values = Ok (chosen values).
Proof. by destruct values as [|[|z] ?]. Qed.

(** What the store holds after a save that got as far as the write. *)
Lemma save_files i v w allowed excluded log_id rest :
  rs_values (allowed_select v) = OptId <$> allowed →
  rs_values (excluded_select v) = OptId <$> excluded →
  cs_values (log_select v) = OptId log_id :: rest →
  disk_ok w (guild_id (view_guild v)) = true →
  files (world (save i {| self := v; world := w |}).2)
  = <[guild_id (view_guild v) :=
        dumps (new_cfg_of allowed excluded
                 (chosen (rs_values (admiral_select v)))
                 (chosen (cs_values (war_select v)))
                 log_id (user_id (inter_user i)) (clock w))]> (files w).
Proof.
  intros Ha He Hlog Hdisk.
  destruct (save_commits i v w allowed excluded
              (chosen (rs_values (admiral_select v)))
              (chosen (cs_values (war_select v))) (OptId log_id) rest log_id)
    as (added & -> & _); try done.
  - rewrite Ha. apply py_map_int_of_OptId.
  - rewrite He. apply py_map_int_of_OptId.
  - apply optional_choice_chosen.
  - apply optional_choice_chosen.
Qed.


(** C4 as amended: after a save that reached the store, reading the guild's
    config back gives exactly the config that was written (given that
    decoding inverts encoding on it); in it the admiral role is null both
    when the picker was left alone and when its ["none"] option was chosen. *)
Theorem save_then_load (i : Interaction) (v : SetupView) (w : World)
    (allowed excluded : list Z) (log_id : Z) (rest : list optval) :
  rs_values (allowed_select v) = OptId <$> allowed →
  rs_values (excluded_select v) = OptId <$> excluded →
  cs_values (log_select v) = OptId log_id :: rest →
  disk_ok w (guild_id (view_guild v)) = true →
  let cfg := new_cfg_of allowed excluded
               (chosen (rs_values (admiral_select v)))
               (chosen (cs_values (war_select v)))
               log_id (user_id (inter_user i)) (clock w) in
  loads (dumps cfg) = Some cfg →
  let after := world (save i {| self := v; world := w |}).2 in
  load_cfg (guild_id (view_guild v)) after = (Ok cfg, after)
  ∧ (rs_values (admiral_select v) = []
     ∨ (∃ more, rs_values (admiral_select v) = OptNone :: more) →
     py_get cfg "admiral_role_id" (PStr "missing") = Ok PNone).
Proof.
  intros Ha He Hlog Hdisk cfg Hcodec after. split.
  - unfold load_cfg. rewrite bind_get_run. unfold after.
    rewrite (save_files i v w allowed excluded log_id rest) by done.
    rewrite lookup_insert_eq. fold cfg. by rewrite Hcodec.
  - unfold cfg. by intros [-> | (more & ->)].
Qed.

End Wizard.

(** * Further properties of the access check *)

Section AccessCheck.
Context `{JsonCodec}.

Lemma member_has_any_role_ids u ids :
  member_has_any_role u (PList (PInt <$> ids))
  = match ids, user_member u with
    | [], _ => Ok false
    | _ :: _, None => Raise AttributeError
    | _ :: _, Some m =>
        Ok (bool_decide (Exists (λ z, z ∈ role_id <$> member_roles m) ids))
    end.
Proof.
  unfold member_has_any_role. destruct ids as [|z ids]; [done |].
  cbn [fmap list_fmap truthy negb]. destruct (user_member u) as [m|]; [| done].
  cbn [py_iter rbind]. apply (py_any_ints (role_id <$> member_roles m) (z :: ids)).
Qed.

(** X1: [member_has_any_role] on a list of ids.  An empty list gives
    [False] for anyone; a non-empty list raises [AttributeError] on a plain
    user and, for a member, is [True] exactly when one of the ids is the id
    of one of the member's roles. *)
Theorem member_has_any_role_spec (u : User) (ids : list Z) :
  member_has_any_role u (PList (PInt <$> ids))
  = match ids, user_member u with
    | [], _ => Ok false
    | _ :: _, None => Raise AttributeError
    | _ :: _, Some m =>
        Ok (bool_decide (Exists (λ z, z ∈ role_id <$> member_roles m) ids))
    end.
Proof. apply member_has_any_role_ids. Qed.

(** X2: the whole decision of [can_use_commands] for a member and a config
    whose two lists hold ids.  The tests run in this order: no allowed roles
    configured; no allowed role held (reported even when an excluded role is
    held too); an excluded role held; otherwise access is granted with an
    empty reason. *)
Theorem can_use_commands_decision (u : User) (m : MemberData)
    (d : gmap string pyval) (allowed excluded : list Z) :
  user_member u = Some m →
  d !! "allowed_role_ids" = Some (PList (PInt <$> allowed)) →
  d !! "excluded_role_ids" = Some (PList (PInt <$> excluded)) →
  let holds ids := bool_decide (Exists (λ z, z ∈ role_id <$> member_roles m) ids) in
  can_use_commands u (PDict d)
  = Ok (match allowed with
        | [] => (false, msg_not_configured)
        | _ :: _ =>
            if negb (holds allowed) then (false, msg_missing_role)
            else if holds excluded then (false, msg_excluded)
            else (true, "")
        end).
Proof.
  intros Hm Ha He holds. unfold can_use_commands, py_get. rewrite Ha, He.
  unfold default; cbn [from_option id rbind].
  destruct allowed as [|a allowed]; [done |].
  change (truthy (PList (PInt <$> a :: allowed))) with true. cbn [negb].
  unfold is_member. rewrite Hm. cbn match.
  rewrite (member_has_any_role_ids u (a :: allowed)), Hm. cbn [rbind].
  fold (holds (a :: allowed)). destruct (holds (a :: allowed)); cbn [negb]; [| done].
  destruct excluded as [|e excluded]; [done |].
  change (truthy (PList (PInt <$> e :: excluded))) with true. cbn match.
  rewrite (member_has_any_role_ids u (e :: excluded)), Hm. cbn [rbind].
  fold (holds (e :: excluded)). by destruct (holds (e :: excluded)).
Qed.

(** X3: a plain user (not a member of a guild) is told to use the command
    in a server as soon as some allowed roles are configured, whatever else
    the config holds. *)
Theorem can_use_commands_outside_server (u : User) (d : gmap string pyval) :
  user_member u = None →
  truthy (default (PList []) (d !! "allowed_role_ids")) = true →
  can_use_commands u (PDict d) = Ok (false, msg_not_in_server).
Proof.
  intros Hu Ht. unfold can_use_commands, py_get. cbn [rbind]. rewrite Ht.
  cbn [negb]. unfold is_member. by rewrite Hu.
Qed.

Lemma py_get_not_dict v key dflt :
  (∀ d, v ≠ PDict d) → py_get v key dflt = Raise AttributeError.
Proof. intros Hv. destruct v; try done. by destruct (Hv d). Qed.

(** X4: a stored file that parses, but not to a JSON object, is not treated
    as missing: the access check of a privileged command and [/setup] both
    raise [AttributeError] in that guild, without answering and without
    touching the world. *)
Theorem non_object_config_raises (w : World) (text : Text) (v : pyval)
    (i : Interaction) (guild : Guild) :
  inter_guild i = Some guild →
  files w !! guild_id guild = Some text →
  loads text = Some v →
  (∀ d, v ≠ PDict d) →
  require_configured_access i w = (Raise AttributeError, w)
  ∧ setup_cmd i w = (Raise AttributeError, w).
Proof.
  intros Hg Hfile Hloads Hv.
  assert (Hload : load_cfg (guild_id guild) w = (Ok v, w)).
  { unfold load_cfg, bind, get, ret. by rewrite Hfile, Hloads. }
  split.
  - unfold require_configured_access. rewrite Hg. unfold bind at 1. rewrite Hload.
    unfold bind, lift_result, can_use_commands.
    by rewrite (py_get_not_dict v _ _ Hv).
  - unfold setup_cmd. rewrite Hg. unfold bind at 1. rewrite Hload.
    unfold bind, lift_result, new_SetupView.
    destruct v as [| | | |l|d]; try done. by destruct (Hv d).
Qed.

End AccessCheck.

(** * Rendering and dispatch *)

Section Rendering.
Context `{JsonCodec}.

Lemma get_role_int guild z : get_role guild (PInt z) = Ok (role_of guild z).
Proof.
  unfold get_role, role_of. cbn [hashable]. f_equal.
  induction (guild_roles guild) as [|r l IH]; [done |].
  cbn [find py_eq_int]. rewrite (Z.eqb_sym z). by destruct (role_id r =? z).
Qed.

Lemma get_channel_int guild z :
  get_channel guild (PInt z)
  = Ok (find (λ c, channel_id c =? z) (guild_channels guild)).
Proof.
  unfold get_channel. cbn [hashable]. f_equal.
  induction (guild_channels guild) as [|c l IH]; [done |].
  cbn [find py_eq_int]. rewrite (Z.eqb_sym z). by destruct (channel_id c =? z).
Qed.

Lemma py_map_get_role guild ids :
  py_map (get_role guild) (PInt <$> ids) = Ok (role_of guild <$> ids).
Proof.
  induction ids as [|z ids IH]; [done |].
  cbn [fmap list_fmap py_map]. rewrite get_role_int. cbn [rbind].
  fold (fmap (M := list) PInt ids). by rewrite IH.
Qed.

Lemma omap_id_fmap {A B} (f : A → option B) (l : list A) :
  omap id (f <$> l) = omap f l.
Proof.
  induction l as [|x l IH]; [done |].
  change (omap id (f <$> x :: l))
    with (match f x with Some y => y :: omap id (f <$> l) | None => omap id (f <$> l) end).
  change (omap f (x :: l))
    with (match f x with Some y => y :: omap f l | None => omap f l end).
  by rewrite IH.
Qed.

Lemma get_role_mentions_ints guild ids :
  get_role_mentions guild (PList (PInt <$> ids))
  = Ok (join ", " (role_mention <$> omap (role_of guild) ids)).
Proof.
  unfold get_role_mentions.
  assert (Hor : py_iter (py_or (PList (PInt <$> ids)) (PList [])) = Ok (PInt <$> ids))
    by by destruct ids.
  rewrite Hor. cbn [rbind]. rewrite py_map_get_role. cbn [rbind].
  by rewrite omap_id_fmap.
Qed.

(** X5: ids that no longer name a role of the guild are skipped when the
    role list is rendered: dropping such an id from the list does not
    change the result. *)
Theorem get_role_mentions_skips_stale (guild : Guild) (before after : list Z) (z : Z) :
  role_of guild z = None →
  get_role_mentions guild (PList (PInt <$> before ++ z :: after))
  = get_role_mentions guild (PList (PInt <$> before ++ after)).
Proof.
  intros Hz. rewrite !get_role_mentions_ints. do 3 f_equal.
  rewrite !omap_app. f_equal. cbn [omap list_omap]. by rewrite Hz.
Qed.

Lemma get_channel_mention_int guild z :
  get_channel_mention guild (PInt z)
  = Ok match text_channel_of guild z with
       | Some c => channel_mention c
       | None => "Not set"
       end.
Proof.
  unfold get_channel_mention, text_channel_of. cbn [truthy].
  destruct (z =? 0); [done |]. cbn [negb]. rewrite get_channel_int. cbn [rbind].
  destruct (find _ (guild_channels guild)) as [c|]; [| done].
  by destruct (channel_is_text c).
Qed.

(** X6: [get_channel_mention] never raises on an id or [None]; it gives
    the mention of the text channel that carries the id and ["Not set"] for
    [None], for the id 0, for an unknown id and for a channel that is not a
    text channel. *)
Theorem get_channel_mention_spec (guild : Guild) (channel : option Z) :
  get_channel_mention guild (of_opt_int channel)
  = Ok match channel with
       | Some z =>
           match text_channel_of guild z with
           | Some c => channel_mention c
           | None => "Not set"
           end
       | None => "Not set"
       end.
Proof. destruct channel as [z|]; [apply get_channel_mention_int | done]. Qed.

Lemma admiral_text_total guild adm :
  ∃ text, admiral_text guild (of_opt_int adm) = Ok text.
Proof.
  destruct adm as [z|]; [| by eexists]. unfold admiral_text. cbn [of_opt_int truthy].
  destruct (negb (z =? 0)); [| by eexists]. rewrite get_role_int. cbn [rbind].
  destruct (role_of guild z); by eexists.
Qed.

Lemma save_summary_total guild allowed excluded adm war log_id :
  ∃ summary, save_summary guild allowed excluded adm war log_id = Ok summary.
Proof.
  unfold save_summary. rewrite !get_role_mentions_ints. cbn [rbind].
  destruct (admiral_text_total guild adm) as (t & ->). cbn [rbind].
  assert (Hwar : ∃ text, get_channel_mention guild (of_opt_int war) = Ok text).
  { destruct war as [z|]; cbn [of_opt_int];
      [rewrite get_channel_mention_int |]; by eexists. }
  destruct Hwar as (t' & ->). cbn [rbind].
  rewrite get_channel_mention_int. cbn [rbind]. by eexists.
Qed.

Lemma log_action_int guild d z content embed w :
  d !! "log_channel_id" = Some (PInt z) →
  log_action guild (PDict d) content embed w
  = match text_channel_of guild z with
    | Some _ =>
        if net_ok w (ChannelSend z (Some content) embed roles_users_only)
        then (Ok tt, extend w [ChannelSend z (Some content) embed roles_users_only])
        else (Raise HTTPException, w)
    | None => (Ok tt, w)
    end.
Proof.
  intros Hd. unfold log_action, py_get. rewrite Hd. unfold default; cbn [from_option id].
  unfold bind at 1, lift_result at 1. unfold text_channel_of. cbn [truthy].
  destruct (Z.eqb_spec z 0) as [|Hz]; [done |]. cbn [negb].
  unfold bind at 1, lift_result at 1. rewrite get_channel_int.
  destruct (find _ (guild_channels guild)) as [c|] eqn:Hfind; [| done].
  destruct (find_some _ _ Hfind) as [_ Hid%Z.eqb_eq].
  destruct (channel_is_text c); [| done].
  cbv [bind channel_send emit get put throw ret]. rewrite Hid.
  by destruct (net_ok w _).
Qed.

(** X7: with a log channel id that names a text channel of the guild,
    [log_action] sends exactly one message, to that channel, with the given
    content and embed; when the platform refuses it the [HTTPException]
    comes out of [log_action] and nothing is recorded. *)
Theorem log_action_delivery (guild : Guild) (d : gmap string pyval) (z : Z)
    (c : Channel) (content : string) (embed : option Embed) (w : World) :
  d !! "log_channel_id" = Some (PInt z) →
  text_channel_of guild z = Some c →
  let entry := ChannelSend z (Some content) embed roles_users_only in
  log_action guild (PDict d) content embed w
  = if net_ok w entry then (Ok tt, extend w [entry]) else (Raise HTTPException, w).
Proof. intros Hd Hc entry. by rewrite (log_action_int guild d z), Hc. Qed.

End Rendering.

Section Announcements.
Context `{JsonCodec}.

Lemma log_action_state guild cfg content embed w :
  ∃ audit,
    (log_action guild cfg content embed w).2 = extend w audit
    ∧ (audit = [] ∨ ∃ ch, audit = [ChannelSend ch (Some content) embed roles_users_only]).
Proof.
  assert (Hstay : ∀ r : result unit, ∃ audit,
            (r, w).2 = extend w audit
            ∧ (audit = [] ∨ ∃ ch, audit = [ChannelSend ch (Some content) embed roles_users_only])).
  { intros r. exists []. split; [symmetry; apply extend_nil | by left]. }
  unfold log_action. unfold bind at 1, lift_result at 1.
  destruct (py_get cfg "log_channel_id" PNone) as [id|e]; [| apply Hstay].
  destruct (negb (truthy id)); [apply Hstay |].
  unfold bind at 1, lift_result at 1.
  destruct (get_channel guild id) as [[c|]|e]; [| apply Hstay | apply Hstay].
  destruct (channel_is_text c); [| apply Hstay].
  cbv [bind channel_send emit get put throw ret].
  destruct (net_ok w _); [| apply Hstay].
  eexists [_]. split; [reflexivity | right; by eexists].
Qed.

(** X8: when the platform refuses the public message in the invoking
    channel, the callbacks of [/roe] and [/declare] stop there with
    [HTTPException]: no mirror post, no confirmation, no audit entry. *)
Theorem announcement_failure_stops (i : Interaction) (offender : User)
    (target : Role) (guild : Guild) (cfg : pyval) (admiral : option Role)
    (war : option Channel) (modal_inter : Interaction) (reason : string) (w : World) :
  (∀ content embed,
     net_ok w (ChannelSend (channel_id (inter_channel i)) content embed roles_users_only)
     = false) →
  roe_after_modal_submit i offender target guild cfg modal_inter reason w
  = (Raise HTTPException, w)
  ∧ declare_after_modal_submit i target guild cfg admiral war modal_inter reason w
    = (Raise HTTPException, w).
Proof.
  intros Hnet. split.
  - cbv [roe_after_modal_submit bind time_now channel_send emit get put throw ret].
    by rewrite Hnet.
  - cbv [declare_after_modal_submit bind time_now channel_send emit get put throw ret].
    by rewrite Hnet.
Qed.

(** X9: with the platform taking every call, the callback of [/roe] posts
    one message in the invoking channel whose content is the target role's
    mention and whose embed carries the offender's mention, the reporter's
    mention and the submitted text; then it answers the submitter privately
    with the link of that message; then comes the audit entry, if any. *)
Theorem roe_posts_report (i : Interaction) (offender : User) (target : Role)
    (guild : Guild) (cfg : pyval) (modal_inter : Interaction) (reason : string)
    (w : World) :
  (∀ e, net_ok w e = true) →
  let here := inter_channel i in
  ∃ embed a b c d audit,
    (roe_after_modal_submit i offender target guild cfg modal_inter reason w).2
    = extend w
        (ChannelSend (channel_id here) (Some (role_mention target)) (Some embed)
           roles_users_only
         :: ResponseSend (inter_id modal_inter)
              ("Posted in " +:+ channel_mention here +:+ " (jump: "
                 +:+ jump_url w (channel_id here) (length (trace w)) +:+ ").")
              true
         :: audit)
    ∧ embed_description embed
      = a +:+ user_mention offender +:+ b +:+ user_mention (inter_user i)
          +:+ c +:+ reason +:+ d
    ∧ (audit = [] ∨ ∃ ch text, audit = [ChannelSend ch (Some text) None roles_users_only]).
Proof.
  intros Hnet here.
  unfold roe_after_modal_submit. unfold bind at 1. unfold time_now at 1.
  unfold bind at 1, get at 1, ret at 1.
  unfold bind at 1. unfold channel_send at 1.
  cbv [bind emit get put throw ret send_message]. rewrite !Hnet. cbn [net_ok with_trace].
  rewrite Hnet.
  match goal with
  | |- context [log_action guild cfg ?text None ?w'] =>
      destruct (log_action_state guild cfg text None w') as (audit & E & Haudit)
  end.
  eexists _, "**Offender:** ", (nl +:+ "**Reported by:** "), (nl +:+ "**Details:** "),
    _, audit.
  split_and!.
  - destruct (log_action guild cfg _ None _) as [r w']. cbn [snd] in *. rewrite E.
    cbn [extend World_traced with_trace trace]. by rewrite <- !app_assoc.
  - reflexivity.
  - destruct Haudit as [-> | (ch & ->)]; [by left | right; by eexists _, _].
Qed.

(** X10: with the platform taking every call and a text channel as war
    channel, the callback of [/declare] posts the same content and embed
    twice, first in the invoking channel and then in the war channel (also
    when the two are the same channel); the content is the target's mention
    followed by the admiral role's mention when there is one. *)
Theorem declare_mirrors_announcement (i : Interaction) (target : Role)
    (guild : Guild) (cfg : pyval) (admiral : option Role) (wc : Channel)
    (modal_inter : Interaction) (reason : string) (w : World) :
  (∀ e, net_ok w e = true) →
  channel_is_text wc = true →
  let content :=
    Some match admiral with
         | Some r => role_mention target +:+ " " +:+ role_mention r
         | None => role_mention target
         end in
  ∃ embed confirmation audit,
    (declare_after_modal_submit i target guild cfg admiral (Some wc)
       modal_inter reason w).2
    = extend w
        (ChannelSend (channel_id (inter_channel i)) content (Some embed) roles_users_only
         :: ChannelSend (channel_id wc) content (Some embed) roles_users_only
         :: ResponseSend (inter_id modal_inter) confirmation true
         :: audit)
    ∧ (audit = [] ∨ ∃ ch text, audit = [ChannelSend ch (Some text) None roles_users_only]).
Proof.
  intros Hnet Htext content. subst content.
  unfold declare_after_modal_submit. unfold bind at 1. unfold time_now at 1.
  unfold bind at 1, get at 1, ret at 1. rewrite Htext.
  cbv [bind channel_send emit get put throw ret send_message].
  rewrite !Hnet. cbn [net_ok with_trace]. rewrite !Hnet. cbn [net_ok with_trace].
  rewrite Hnet.
  match goal with
  | |- context [log_action guild cfg ?text None ?w'] =>
      destruct (log_action_state guild cfg text None w') as (audit & E & Haudit)
  end.
  eexists _, _, audit. split.
  - destruct (log_action guild cfg _ None _) as [r w']. cbn [snd] in *. rewrite E.
    unfold extend, World_traced, with_trace.
    cbn [files trace clock disk_ok net_ok jump_url]. rewrite <- !app_assoc.
    assert (Hcontent :
      join " " (role_mention target
                  :: match admiral with Some r => [role_mention r] | None => [] end)
      = match admiral with
        | Some r => role_mention target +:+ " " +:+ role_mention r
        | None => role_mention target
        end) by by destruct admiral.
    rewrite !Hcontent. reflexivity.
  - destruct Haudit as [-> | (ch & ->)]; [by left | right; by eexists _, _].
Qed.

End Announcements.

(** * Further properties of the panel *)

Section PanelRuns.
Context `{JsonCodec}.

(** [save], once its inputs are read and the store is written. *)
Lemma save_unfold i v w allowed excluded adm war log_val rest log_id :
  py_map int_of (rs_values (allowed_select v)) = Ok allowed →
  py_map int_of (rs_values (excluded_select v)) = Ok excluded →
  optional_choice (rs_values (admiral_select v)) = Ok adm →
  optional_choice (cs_values (war_select v)) = Ok war →
  cs_values (log_select v) = log_val :: rest →
  int_of log_val = Ok log_id →
  disk_ok w (guild_id (view_guild v)) = true →
  let cfg := new_cfg_of allowed excluded adm war log_id
               (user_id (inter_user i)) (clock w) in
  save i {| self := v; world := w |}
  = bind (lift_result (save_summary (view_guild v) allowed excluded adm war log_id))
      (λ summary,
         bind (in_world (edit_message_no_view i
                           ("✅ **Configuration saved.**" +:+ nl +:+ summary)))
           (λ _, in_world
                   (log_action (view_guild v) cfg
                      ("🛠️ Configuration updated by "
                         +:+ user_mention (inter_user i) +:+ "." +:+ nl +:+ summary)
                      None)))
      {| self := v; world := written w (guild_id (view_guild v)) cfg |}.
Proof.
  intros Ha He Hadm Hwar Hlog Hid Hdisk cfg.
  unfold save. rewrite bind_get_run. cbn [self world].
  rewrite !ids_of_py_map, Ha, He, Hadm, Hwar, Hlog, Hid.
  do 5 (unfold bind at 1, lift_result at 1).
  unfold bind at 1. unfold in_world at 1, time_now, bind at 1, get, ret. cbn [world self].
  unfold bind at 1. unfold in_world at 1, save_cfg, bind at 1, get, put. cbn [world self].
  by rewrite Hdisk.
Qed.

Lemma net_ok_written w guild cfg e : net_ok (written w guild cfg) e = net_ok w e.
Proof. reflexivity. Qed.

Lemma net_ok_with_trace (w : World) t e : net_ok (with_trace w t) e = net_ok w e.
Proof. reflexivity. Qed.

Lemma new_cfg_log_lookup a e adm war l by_ at_ :
  ∃ d, new_cfg_of a e adm war l by_ at_ = PDict d
       ∧ d !! "log_channel_id" = Some (PInt l).
Proof. by eexists. Qed.

(** X11: a save with a log channel selected, on a writable store and with
    the platform taking every call, writes the new config, replaces the
    panel by the confirmation, and then audits in the log channel that was
    just selected (not in a previously stored one): exactly one audit
    message when that id names a text channel of the guild, none
    otherwise.  It returns normally in both cases. *)
Theorem save_success (i : Interaction) (v : SetupView) (w : World)
    (allowed excluded : list Z) (log_id : Z) (rest : list optval) :
  rs_values (allowed_select v) = OptId <$> allowed →
  rs_values (excluded_select v) = OptId <$> excluded →
  cs_values (log_select v) = OptId log_id :: rest →
  disk_ok w (guild_id (view_guild v)) = true →
  (∀ e, net_ok w e = true) →
  let guild := view_guild v in
  let adm := chosen (rs_values (admiral_select v)) in
  let war := chosen (cs_values (war_select v)) in
  let cfg := new_cfg_of allowed excluded adm war log_id
               (user_id (inter_user i)) (clock w) in
  ∃ summary,
    save_summary guild allowed excluded adm war log_id = Ok summary
    ∧ save i {| self := v; world := w |}
      = (Ok tt,
         extend {| self := v; world := written w (guild_id guild) cfg |}
           (ResponseEdit (inter_id i)
              ("✅ **Configuration saved.**" +:+ nl +:+ summary) true
            :: match text_channel_of guild log_id with
               | Some _ =>
                   [ChannelSend log_id
                      (Some ("🛠️ Configuration updated by "
                               +:+ user_mention (inter_user i) +:+ "." +:+ nl +:+ summary))
                      None roles_users_only]
               | None => []
               end)).
Proof.
  intros Ha He Hlog Hdisk Hnet guild adm war cfg.
  destruct (save_summary_total guild allowed excluded adm war log_id) as (summary & Hs).
  exists summary. split; [done |].
  rewrite (save_unfold i v w allowed excluded adm war (OptId log_id) rest log_id);
    [| by rewrite Ha, py_map_int_of_OptId | by rewrite He, py_map_int_of_OptId
     | apply optional_choice_chosen | apply optional_choice_chosen | done | done | done].
  fold guild. rewrite Hs. unfold bind at 1, lift_result at 1.
  unfold bind at 1. unfold in_world at 1, edit_message_no_view, emit, bind at 1, get, put.
  cbn [world self]. rewrite net_ok_written, Hnet.
  cbn [fst snd self world]. unfold in_world.
  destruct (new_cfg_log_lookup allowed excluded adm war log_id
              (user_id (inter_user i)) (clock w)) as (d & Hcfg & Hd).
  subst cfg. rewrite Hcfg. cbn [self world].
  rewrite (log_action_int guild d log_id _ None _ Hd).
  destruct (text_channel_of guild log_id).
  - rewrite net_ok_with_trace, net_ok_written, Hnet.
    unfold extend, ViewState_traced, World_traced. cbn [self world].
    unfold with_trace. cbn [files trace clock disk_ok net_ok jump_url].
    by rewrite <- !app_assoc.
  - unfold extend, ViewState_traced, World_traced. cbn [self world].
    unfold with_trace. by cbn [files trace clock disk_ok net_ok jump_url].
Qed.

(** X12: when the store was written but the platform refuses the
    confirmation, the save raises [HTTPException] with the new config
    already in the store: the write is not undone, the panel stays, and no
    audit entry is sent. *)
Theorem save_failed_confirmation (i : Interaction) (v : SetupView) (w : World)
    (allowed excluded : list Z) (log_id : Z) (rest : list optval) :
  rs_values (allowed_select v) = OptId <$> allowed →
  rs_values (excluded_select v) = OptId <$> excluded →
  cs_values (log_select v) = OptId log_id :: rest →
  disk_ok w (guild_id (view_guild v)) = true →
  (∀ content, net_ok w (ResponseEdit (inter_id i) content true) = false) →
  let cfg := new_cfg_of allowed excluded
               (chosen (rs_values (admiral_select v)))
               (chosen (cs_values (war_select v)))
               log_id (user_id (inter_user i)) (clock w) in
  save i {| self := v; world := w |}
  = (Raise HTTPException,
     {| self := v; world := written w (guild_id (view_guild v)) cfg |}).
Proof.
  intros Ha He Hlog Hdisk Hnet cfg.
  destruct (save_summary_total (view_guild v) allowed excluded
              (chosen (rs_values (admiral_select v)))
              (chosen (cs_values (war_select v))) log_id) as (summary & Hs).
  rewrite (save_unfold i v w allowed excluded
             (chosen (rs_values (admiral_select v)))
             (chosen (cs_values (war_select v))) (OptId log_id) rest log_id);
    [| by rewrite Ha, py_map_int_of_OptId | by rewrite He, py_map_int_of_OptId
     | apply optional_choice_chosen | apply optional_choice_chosen | done | done | done].
  rewrite Hs. unfold bind at 1, lift_result at 1.
  unfold bind at 1. unfold in_world at 1, edit_message_no_view, emit, bind at 1, get, put, throw.
  cbn [world self]. by rewrite net_ok_written, Hnet.
Qed.

(** X13: whatever happens in a save, the panel object is not changed and
    the files of all other guilds stay as they were. *)
Theorem save_frame (i : Interaction) (s : ViewState) :
  self (save i s).2 = self s
  ∧ ∀ other, other ≠ guild_id (view_guild (self s)) →
      files (world (save i s).2) !! other = files (world s) !! other.
Proof.
  destruct (save_shape i s) as [(added & -> & _) | (cfg & added & _ & -> & _)].
  - by split.
  - split; [done |]. intros other Hother. cbn [extend ViewState_traced self world].
    unfold extend, World_traced, written, with_trace, with_files. cbn [files].
    by rewrite lookup_insert_ne.
Qed.

Lemma run_session_defers session s :
  ∃ added,
    world (run_session session s) = extend (world s) added
    ∧ Forall is_defer added.
Proof.
  revert s. induction session as [|[[q vals] i] rest IH]; intros s.
  - exists []. by rewrite extend_nil.
  - cbn [run_session].
    assert (Hstep : ∃ a1, world (select_callback q vals i s).2 = extend (world s) a1
                          ∧ Forall is_defer a1).
    { cbv [select_callback bind get put in_world emit throw self world].
      destruct s as [v w].
      destruct (net_ok w (ResponseDefer (inter_id i) true)); cbn [snd self world].
      - exists [ResponseDefer (inter_id i) true]. split; [done | by repeat constructor].
      - exists []. by rewrite extend_nil. }
    destruct Hstep as (a1 & E1 & F1).
    destruct (IH (select_callback q vals i s).2) as (a2 & E2 & F2).
    exists (a1 ++ a2). rewrite E2, E1, extend_app. split; [done | by apply Forall_app].
Qed.

(** X14: submissions on the pickers are only buffered in the panel: a
    session adds nothing but acknowledgements to the trace, leaves every
    file as it was, and so a config read in any guild gives what it gave
    before the session. *)
Theorem session_is_buffered (session : list Submission) (s : ViewState) :
  ∃ added,
    trace (world (run_session session s)) = trace (world s) ++ added
    ∧ Forall is_defer added
    ∧ files (world (run_session session s)) = files (world s)
    ∧ ∀ guild, (load_cfg guild (world (run_session session s))).1
               = (load_cfg guild (world s)).1.
Proof.
  destruct (run_session_defers session s) as (added & E & F).
  exists added. rewrite E. split_and!; [done | done | done |].
  intros guild. unfold load_cfg, bind, get, ret.
  cbn [extend World_traced with_trace files].
  destruct (files (world s) !! guild) as [text|]; [| done]. by destruct (loads text).
Qed.

(** X15: cancelling, after any session, writes nothing to the store and
    sends no channel message: the files are those from before the session,
    and none of the events added is a store write or a channel message. *)
Theorem cancel_discards (session : list Submission) (i : Interaction) (s : ViewState) :
  ∃ added,
    trace (world (cancel i (run_session session s)).2) = trace (world s) ++ added
    ∧ Forall (λ e, ¬ is_file_write e ∧ ¬ is_channel_send e) added
    ∧ files (world (cancel i (run_session session s)).2) = files (world s).
Proof.
  destruct (run_session_defers session s) as (a1 & E & F).
  assert (F1 : Forall (λ e, ¬ is_file_write e ∧ ¬ is_channel_send e) a1).
  { eapply Forall_impl; [exact F |]. intros []; cbn; tauto. }
  cbv [cancel in_world edit_message_no_view emit bind get put throw].
  rewrite E. cbn [net_ok extend World_traced with_trace].
  destruct (net_ok (world s) _); cbn [snd world trace files with_trace].
  - exists (a1 ++ [ResponseEdit (inter_id i) msg_canceled true]).
    rewrite app_assoc. split_and!; [done | | done].
    apply Forall_app. split; [done |]. repeat constructor; by intros [].
  - by exists a1.
Qed.

(** X16: two saves in the same guild, one after the other: the store holds
    the config of the second, whatever the first wrote (last writer wins). *)
Theorem last_save_wins (i1 i2 : Interaction) (v1 v2 : SetupView) (w : World)
    (a1 e1 a2 e2 : list Z) (log1 log2 : Z) (rest1 rest2 : list optval) :
  view_guild v1 = view_guild v2 →
  rs_values (allowed_select v1) = OptId <$> a1 →
  rs_values (excluded_select v1) = OptId <$> e1 →
  cs_values (log_select v1) = OptId log1 :: rest1 →
  rs_values (allowed_select v2) = OptId <$> a2 →
  rs_values (excluded_select v2) = OptId <$> e2 →
  cs_values (log_select v2) = OptId log2 :: rest2 →
  disk_ok w (guild_id (view_guild v1)) = true →
  let w1 := world (save i1 {| self := v1; world := w |}).2 in
  files (world (save i2 {| self := v2; world := w1 |}).2)
  = <[guild_id (view_guild v2) :=
        dumps (new_cfg_of a2 e2
                 (chosen (rs_values (admiral_select v2)))
                 (chosen (cs_values (war_select v2)))
                 log2 (user_id (inter_user i2)) (clock w))]> (files w).
Proof.
  intros Hg Ha1 He1 Hl1 Ha2 He2 Hl2 Hdisk w1.
  destruct (save_commits i1 v1 w a1 e1
              (chosen (rs_values (admiral_select v1)))
              (chosen (cs_values (war_select v1))) (OptId log1) rest1 log1)
    as (added & E & _);
    [by rewrite Ha1, py_map_int_of_OptId | by rewrite He1, py_map_int_of_OptId
     | apply optional_choice_chosen | apply optional_choice_chosen | done | done | done |].
  assert (Hw1 : files w1 = <[guild_id (view_guild v1) :=
                   dumps (new_cfg_of a1 e1 (chosen (rs_values (admiral_select v1)))
                            (chosen (cs_values (war_select v1))) log1
                            (user_id (inter_user i1)) (clock w))]> (files w)
                ∧ clock w1 = clock w ∧ disk_ok w1 = disk_ok w).
  { unfold w1. by rewrite E. }
  destruct Hw1 as (Hf & Hc & Hd).
  rewrite (save_files i2 v2 w1 a2 e2 log2 rest2); [| done | done | done |].
  - by rewrite Hf, Hc, Hg, insert_insert_eq.
  - by rewrite Hd, <- Hg.
Qed.

(** X17: on a panel whose pickers hold no submission yet, a save after a
    session that never touched the allowed-roles picker stores an empty
    allowed list, so afterwards -- reading the file back -- the access check
    denies every user of that guild with the not-configured reason, whatever
    config the panel keeps and whatever it shows as preselected. *)
Theorem save_with_untouched_allowed_locks_out
    (v0 : SetupView) (w0 : World) (session : list Submission) (i : Interaction)
    (excluded : list Z) (log_id : Z) (rest : list optval) :
  (∀ p, values_of p v0 = []) →
  untouched PAllowed session →
  latest PExcluded session = OptId <$> excluded →
  latest PLog session = OptId log_id :: rest →
  disk_ok w0 (guild_id (view_guild v0)) = true →
  (∀ v, loads (dumps v) = Some v) →
  let after :=
    world (save i (run_session session {| self := v0; world := w0 |})).2 in
  ∀ u, bind (load_cfg (guild_id (view_guild v0)))
         (λ stored, lift_result (can_use_commands u stored)) after
       = (Ok (false, msg_not_configured), after).
Proof.
  intros Hfresh Hu He Hlog Hdisk Hcodec after u.
  destruct (run_session_state session {| self := v0; world := w0 |})
    as (added & v & Hrun & Hg & Hv).
  cbn [self world] in Hg, Hv.
  assert (Hlatest : ∀ p, values_of p v = latest p session).
  { intros p. by rewrite Hv, Hfresh. }
  pose proof (Hlatest PAllowed) as Hpa. pose proof (Hlatest PExcluded) as Hpe.
  pose proof (Hlatest PLog) as Hpl. cbn [values_of] in Hpa, Hpe, Hpl.
  unfold latest in Hpa. rewrite latest_from_untouched in Hpa by done.
  assert (Hfiles : files after !! guild_id (view_guild v0)
                   = Some (dumps (new_cfg_of [] excluded
                                    (chosen (rs_values (admiral_select v)))
                                    (chosen (cs_values (war_select v)))
                                    log_id (user_id (inter_user i)) (clock w0)))).
  { unfold after. rewrite Hrun.
    rewrite (save_files i v _ [] excluded log_id rest);
      [| done | by rewrite Hpe | by rewrite Hpl | by rewrite Hg].
    by rewrite Hg, lookup_insert_eq. }
  cbv [bind load_cfg get ret lift_result]. rewrite Hfiles, Hcodec. reflexivity.
Qed.

End PanelRuns.

(** * Building the panel *)

Section PanelOptions.
Context `{JsonCodec}.

Lemma insert_role_perm r l : insert_role r l ≡ₚ r :: l.
Proof.
  induction l as [|x l IH]; [done |]. cbn [insert_role].
  destruct (role_position r <? role_position x); [| done].
  rewrite IH. apply perm_swap.
Qed.

Lemma insert_role_sorted r l :
  StronglySorted ranks_above l → StronglySorted ranks_above (insert_role r l).
Proof.
  induction 1 as [|x l Hl IH Hx]; [repeat constructor |]. cbn [insert_role].
  destruct (Z.ltb_spec (role_position r) (role_position x)) as [Hlt|Hge].
  - constructor; [done |]. rewrite insert_role_perm. constructor; [| done].
    unfold ranks_above. lia.
  - constructor; [by constructor |]. constructor; [done |].
    eapply Forall_impl; [exact Hx |]. unfold ranks_above. intros y Hy. lia.
Qed.

Lemma insert_role_filter r l p :
  filter (λ x, role_position x = p) (insert_role r l)
  = filter (λ x, role_position x = p) (r :: l).
Proof.
  induction l as [|x l IH]; [done |]. cbn [insert_role].
  destruct (Z.ltb_spec (role_position r) (role_position x)) as [Hlt|Hge]; [| done].
  rewrite filter_cons, IH, !filter_cons.
  repeat case_decide; try done; lia.
Qed.

Lemma sorted_roles_perm roles : sorted_roles roles ≡ₚ roles.
Proof.
  unfold sorted_roles. induction roles as [|r roles IH]; [done |].
  cbn [foldr]. by rewrite insert_role_perm, IH.
Qed.

(** X18: the order in which the role pickers list roles.  [sorted_roles]
    returns the same roles, each as often as it was given; a role is never
    listed after one of lower position; and roles of equal position keep
    the order they had in the guild's role list. *)
Theorem sorted_roles_spec (roles : list Role) :
  sorted_roles roles ≡ₚ roles
  ∧ StronglySorted ranks_above (sorted_roles roles)
  ∧ ∀ p, filter (λ r, role_position r = p) (sorted_roles roles)
         = filter (λ r, role_position r = p) roles.
Proof.
  unfold sorted_roles. induction roles as [|r roles (Hperm & Hsorted & Hstable)].
  - split_and!; [done | constructor | done].
  - cbn [foldr]. split_and!.
    + by rewrite insert_role_perm, Hperm.
    + by apply insert_role_sorted.
    + intros p. by rewrite insert_role_filter, !filter_cons, Hstable.
Qed.

Lemma py_prefix_length n s : (py_len (py_prefix n s) ≤ n)%nat.
Proof.
  revert n. induction s as [|c s IH]; intros n; cbn [py_prefix py_len]; [lia |].
  destruct (is_continuation c) eqn:Ec.
  - cbn [py_len]. rewrite Ec. apply IH.
  - destruct n as [|n]; cbn [py_len]; [lia |]. rewrite Ec.
    specialize (IH n). lia.
Qed.

Lemma py_prefix_short n s : (py_len s ≤ n)%nat → py_prefix n s = s.
Proof.
  revert n. induction s as [|c s IH]; intros n; cbn [py_prefix py_len]; [done |].
  destruct (is_continuation c).
  - intros Hn. by rewrite IH.
  - destruct n as [|n]; [lia |]. intros Hn. rewrite IH; [done | lia].
Qed.

Lemma role_options_labels guild f :
  Forall (λ o, (py_len (opt_label o) ≤ 95)%nat) (role_options guild f).
Proof.
  unfold role_options. apply Forall_fmap, Forall_forall. intros r _.
  apply py_prefix_length.
Qed.

Lemma channel_options_labels guild f :
  Forall (λ o, (py_len (opt_label o) ≤ 95)%nat) (channel_options guild f).
Proof.
  unfold channel_options. apply Forall_fmap, Forall_forall. intros c _.
  apply py_prefix_length.
Qed.

Lemma none_option_label b : (py_len (opt_label (none_option b)) ≤ 95)%nat.
Proof. vm_compute. lia. Qed.

(** The options the constructor gives the five pickers. *)
Lemma panel_selects_options guild cfg invoker v :
  panel_selects guild cfg invoker = Ok v →
  ∃ fa fe fadm fw fl ba bw,
    rs_options (allowed_select v) = role_options guild fa
    ∧ rs_options (excluded_select v) = role_options guild fe
    ∧ rs_options (admiral_select v) = none_option ba :: role_options guild fadm
    ∧ cs_options (war_select v) = none_option bw :: channel_options guild fw
    ∧ cs_options (log_select v) = channel_options guild fl.
Proof.
  unfold panel_selects. intros Hv.
  repeat match type of Hv with
         | rbind ?r _ = _ =>
             let E := fresh "E" in
             destruct r eqn:E; cbn [rbind] in Hv; [| discriminate]
         end.
  injection Hv as <-. by eexists _, _, _, _, _, _, _.
Qed.

(** X19: no option the constructor gives a picker (lines 105 to 141) has a
    label of more than 95 code points, however long the role and channel
    names are. *)
Theorem option_labels_bounded (guild : Guild) (cfg : pyval) (invoker : User)
    (v : SetupView) :
  panel_selects guild cfg invoker = Ok v →
  Forall (λ o, (py_len (opt_label o) ≤ 95)%nat) (all_options v).
Proof.
  intros Hv.
  destruct (panel_selects_options _ _ _ _ Hv)
    as (fa & fe & fadm & fw & fl & ba & bw & Ea & Ee & Eadm & Ew & El).
  unfold all_options. rewrite Ea, Ee, Eadm, Ew, El.
  repeat (apply Forall_app; split);
    repeat (apply Forall_cons; split);
    auto using role_options_labels, channel_options_labels, none_option_label.
Qed.

Lemma role_options_values guild f z :
  OptId z ∈ opt_value <$> role_options guild f
  ↔ ∃ r, r ∈ guild_roles guild ∧ role_is_default r = false ∧ role_id r = z.
Proof.
  unfold role_options. rewrite <- list_fmap_compose, list_elem_of_fmap.
  pose proof (sorted_roles_perm (guild_roles guild)) as Hperm.
  split.
  - intros (r & [= ->] & Hr). apply list_elem_of_filter in Hr as [Hd Hr].
    rewrite Hperm in Hr. by exists r.
  - intros (r & Hr & Hd & <-). exists r. split; [done |].
    apply list_elem_of_filter. by rewrite Hperm.
Qed.

Lemma role_options_ids guild f :
  Forall (λ o, is_none (opt_value o) = false) (role_options guild f).
Proof. unfold role_options. by apply Forall_fmap, Forall_forall. Qed.

Lemma channel_options_ids guild f :
  Forall (λ o, is_none (opt_value o) = false) (channel_options guild f).
Proof. unfold channel_options. by apply Forall_fmap, Forall_forall. Qed.

(** X20: what the constructor puts in the pickers (lines 105 to 141).  The
    three role pickers offer exactly the ids of the guild's roles other than
    the default role; and the allowed-roles, excluded-roles and log-channel
    pickers have no ["none"] option, so every value they offer is an id. *)
Theorem pickers_offer (guild : Guild) (cfg : pyval) (invoker : User) (v : SetupView) :
  panel_selects guild cfg invoker = Ok v →
  (∀ z sel, sel ∈ [allowed_select v; excluded_select v; admiral_select v] →
     OptId z ∈ opt_value <$> rs_options sel
     ↔ ∃ r, r ∈ guild_roles guild ∧ role_is_default r = false ∧ role_id r = z)
  ∧ Forall (λ o, is_none (opt_value o) = false)
      (rs_options (allowed_select v) ++ rs_options (excluded_select v)
       ++ cs_options (log_select v)).
Proof.
  intros Hv.
  destruct (panel_selects_options _ _ _ _ Hv)
    as (fa & fe & fadm & fw & fl & ba & bw & Ea & Ee & Eadm & Ew & El).
  split.
  - intros z sel Hsel. rewrite !elem_of_cons, elem_of_nil in Hsel.
    destruct Hsel as [-> | [-> | [-> | []]]].
    + rewrite Ea. apply role_options_values.
    + rewrite Ee. apply role_options_values.
    + rewrite Eadm, fmap_cons, elem_of_cons, role_options_values.
      split; [by intros [? | ?] | by right].
  - rewrite Ea, Ee, El. repeat (apply Forall_app; split);
      auto using role_options_ids, channel_options_ids.
Qed.

End PanelOptions.

(** * Commands *)

Section Commands.
Context `{JsonCodec}.

Lemma only_emits_send_private i content :
  only_emits private_answer (send_message i content true).
Proof. by apply only_emits_emit. Qed.

(** X21: the two checks, [/setup] and [/config] never write to the store
    and never post in a channel: all they add to the trace are answers
    that only the invoker sees. *)
Theorem commands_answer_privately (py_str : pyval → string) (i : Interaction) :
  only_emits private_answer (admin_only i)
  ∧ only_emits private_answer (require_configured_access i)
  ∧ only_emits private_answer (setup_cmd i)
  ∧ only_emits private_answer (config_show py_str i).
Proof.
  split_and!.
  - unfold admin_only. destruct (is_administrator _); [apply only_emits_ret |].
    apply only_emits_bind; [apply only_emits_send_private | intros; apply only_emits_ret].
  - unfold require_configured_access. destruct (inter_guild i) as [guild|].
    + apply only_emits_bind; [apply only_emits_load_cfg | intros cfg].
      apply only_emits_bind; [apply only_emits_lift_result | intros verdict].
      destruct (negb verdict.1); [| apply only_emits_ret].
      apply only_emits_bind; [apply only_emits_send_private | intros; apply only_emits_ret].
    + apply only_emits_bind; [apply only_emits_send_private | intros; apply only_emits_ret].
  - unfold setup_cmd. destruct (inter_guild i) as [guild|].
    + apply only_emits_bind; [apply only_emits_load_cfg | intros cfg].
      apply only_emits_bind; [apply only_emits_lift_result | intros view].
      apply only_emits_bind; [apply only_emits_send_private | intros; apply only_emits_ret].
    + apply only_emits_bind; [apply only_emits_send_private | intros; apply only_emits_ret].
  - unfold config_show. destruct (inter_guild i) as [guild|];
      [| apply only_emits_send_private].
    apply only_emits_bind; [apply only_emits_load_cfg | intros cfg].
    destruct (negb (truthy cfg)); [apply only_emits_send_private |].
    apply only_emits_bind; [apply only_emits_lift_result | intros summary].
    apply only_emits_send_private.
Qed.

(** X22: in a guild whose file is missing or does not parse, [/config]
    answers privately that no configuration is saved yet. *)
Theorem config_show_unconfigured (py_str : pyval → string) (i : Interaction)
    (guild : Guild) (w : World) :
  inter_guild i = Some guild →
  (files w !! guild_id guild = None
   ∨ ∃ text, files w !! guild_id guild = Some text ∧ loads text = None) →
  let answer := ResponseSend (inter_id i) msg_no_config true in
  config_show py_str i w
  = if net_ok w answer then (Ok tt, extend w [answer]) else (Raise HTTPException, w).
Proof.
  intros Hg Hfile answer. unfold config_show. rewrite Hg.
  assert (Hload : load_cfg (guild_id guild) w = (Ok empty_cfg, w)).
  { unfold load_cfg, bind, get, ret.
    destruct Hfile as [-> | (text & -> & ->)]; reflexivity. }
  unfold bind at 1. rewrite Hload.
  cbv [empty_cfg truthy negb send_message emit bind get put throw].
  change (bool_decide (∅ = ∅)) with true. cbn [negb]. fold answer.
  by destruct (net_ok w answer).
Qed.

Lemma append_assoc (a b c : string) : (a +:+ b) +:+ c = a +:+ (b +:+ c).
Proof. induction a as [|x a IH]; [done | exact (f_equal (String x) IH)]. Qed.

(** X23: [/config] shows a config written by [save] with the same five
    lines as the confirmation of that save (as long as the guild's roles
    and channels are the same), followed by the line that tells when and by
    whom it was updated. *)
Theorem config_summary_of_saved (py_str : pyval → string) (guild : Guild)
    (allowed excluded : list Z) (adm war : option Z) (log_id by_ at_ : Z) :
  ∃ summary,
    save_summary guild allowed excluded adm war log_id = Ok summary
    ∧ config_summary py_str guild
        (new_cfg_of allowed excluded adm war log_id by_ at_)
      = Ok (summary +:+ nl +:+ "_Updated: <t:" +:+ py_str (PInt at_)
              +:+ ":R> by <@" +:+ py_str (PInt by_) +:+ ">_").
Proof.
  unfold save_summary, config_summary.
  change (py_get (new_cfg_of allowed excluded adm war log_id by_ at_)
            "admiral_role_id" PNone) with (Ok (of_opt_int adm)).
  change (py_get (new_cfg_of allowed excluded adm war log_id by_ at_)
            "allowed_role_ids" (PList [])) with (Ok (PList (PInt <$> allowed))).
  change (py_get (new_cfg_of allowed excluded adm war log_id by_ at_)
            "excluded_role_ids" (PList [])) with (Ok (PList (PInt <$> excluded))).
  change (py_get (new_cfg_of allowed excluded adm war log_id by_ at_)
            "war_channel_id" PNone) with (Ok (of_opt_int war)).
  change (py_get (new_cfg_of allowed excluded adm war log_id by_ at_)
            "log_channel_id" PNone) with (Ok (PInt log_id)).
  change (py_get (new_cfg_of allowed excluded adm war log_id by_ at_)
            "updated_at" (PInt 0)) with (Ok (PInt at_)).
  change (py_get (new_cfg_of allowed excluded adm war log_id by_ at_)
            "updated_by" (PInt 0)) with (Ok (PInt by_)).
  cbn [rbind]. rewrite !get_role_mentions_ints.
  destruct (admiral_text_total guild adm) as (t & ->). cbn [rbind].
  assert (Hwar : ∃ text, get_channel_mention guild (of_opt_int war) = Ok text).
  { destruct war as [z|]; cbn [of_opt_int];
      [rewrite get_channel_mention_int |]; by eexists. }
  destruct Hwar as (t' & ->). rewrite get_channel_mention_int. cbn [rbind].
  eexists. split; [reflexivity |]. f_equal.
  by rewrite !append_assoc.
Qed.

End Commands.

Section Reopening.
Context `{JsonCodec}.

Lemma forallb_hashable_ints ids : forallb hashable (PInt <$> ids) = true.
Proof. induction ids as [|z ids IH]; [done | exact IH]. Qed.

Lemma py_set_ints ids : py_set (PList (PInt <$> ids)) = Ok (PInt <$> ids).
Proof. unfold py_set. cbn [py_iter rbind]. by rewrite forallb_hashable_ints. Qed.

Lemma new_RolesSelect_ints placeholder ids max_values row :
  new_RolesSelect placeholder (PList (PInt <$> ids)) max_values row
  = Ok {| rs_placeholder := placeholder; rs_min_values := 0;
          rs_max_values := max_values; rs_row := row; rs_options := [];
          rs_preselected := PInt <$> ids; rs_values := [] |}.
Proof.
  unfold new_RolesSelect.
  assert (Hor : py_or (PList (PInt <$> ids)) (PList []) = PList (PInt <$> ids))
    by by destruct ids.
  by rewrite Hor, py_set_ints.
Qed.

Lemma int_in_set_ints z ids : int_in_set z (PInt <$> ids) = bool_decide (z ∈ ids).
Proof.
  unfold int_in_set. induction ids as [|i ids IH].
  - symmetry. apply bool_decide_eq_false_2, not_elem_of_nil.
  - change (existsb (py_eq_int z) (PInt <$> i :: ids))
      with ((i =? z) || existsb (py_eq_int z) (PInt <$> ids))%bool.
    rewrite IH. destruct (Z.eqb_spec i z) as [->|Hne]; cbn [orb].
    + symmetry. apply bool_decide_eq_true_2. left.
    + apply bool_decide_ext. rewrite elem_of_cons. split; [tauto |].
      intros [-> | ?]; [done | done].
Qed.

Lemma role_options_default guild f o :
  o ∈ role_options guild f →
  ∃ r, opt_value o = OptId (role_id r) ∧ opt_default o = f r.
Proof.
  unfold role_options. intros (r & -> & _)%list_elem_of_fmap. by exists r.
Qed.

(** The pickers built on a config that [save] wrote. *)
Lemma panel_selects_saved guild invoker allowed excluded adm war log_id by_ at_ :
  ∃ v,
    panel_selects guild (new_cfg_of allowed excluded adm war log_id by_ at_) invoker
    = Ok v
    ∧ rs_options (allowed_select v)
      = role_options guild (λ r, int_in_set (role_id r) (PInt <$> allowed))
    ∧ rs_options (excluded_select v)
      = role_options guild (λ r, int_in_set (role_id r) (PInt <$> excluded))
    ∧ head (rs_options (admiral_select v))
      = Some (none_option (is_PNone (of_opt_int adm))).
Proof.
  unfold panel_selects.
  change (py_copy (new_cfg_of allowed excluded adm war log_id by_ at_))
    with (Ok (new_cfg_of allowed excluded adm war log_id by_ at_)).
  cbn [rbind].
  change (py_get (new_cfg_of allowed excluded adm war log_id by_ at_)
            "allowed_role_ids" (PList [])) with (Ok (PList (PInt <$> allowed))).
  change (py_get (new_cfg_of allowed excluded adm war log_id by_ at_)
            "excluded_role_ids" (PList [])) with (Ok (PList (PInt <$> excluded))).
  change (py_get (new_cfg_of allowed excluded adm war log_id by_ at_)
            "admiral_role_id" PNone) with (Ok (of_opt_int adm)).
  change (py_get (new_cfg_of allowed excluded adm war log_id by_ at_)
            "war_channel_id" PNone) with (Ok (of_opt_int war)).
  change (py_get (new_cfg_of allowed excluded adm war log_id by_ at_)
            "log_channel_id" PNone) with (Ok (PInt log_id)).
  cbn [rbind]. rewrite !py_set_ints. cbn [rbind]. rewrite !new_RolesSelect_ints.
  cbn [rbind].
  assert (Hadm : ∃ ids, (if truthy (of_opt_int adm)
                         then PList [of_opt_int adm] else PList [])
                        = PList (PInt <$> ids)).
  { destruct adm as [z|]; cbn [of_opt_int truthy]; [| by exists []].
    destruct (negb (z =? 0)); [by exists [z] | by exists []]. }
  destruct Hadm as (ids & ->). rewrite new_RolesSelect_ints. cbn [rbind].
  eexists. split; [reflexivity |]. by split_and!.
Qed.

(** X24: the pickers the constructor builds on a config that [save] wrote
    (lines 93 to 127).  A role is marked as preselected in the allowed-roles
    (excluded-roles) picker exactly when its id is in the stored allowed
    (excluded) list, and the ["None"] option of the admiral picker is marked
    exactly when no admiral role is stored. *)
Theorem pickers_on_saved_config (guild : Guild) (invoker : User)
    (allowed excluded : list Z) (adm war : option Z) (log_id by_ at_ : Z) :
  ∃ v,
    panel_selects guild (new_cfg_of allowed excluded adm war log_id by_ at_) invoker
    = Ok v
    ∧ (∀ o, o ∈ rs_options (allowed_select v) →
         opt_default o = true ↔ ∃ z, z ∈ allowed ∧ opt_value o = OptId z)
    ∧ (∀ o, o ∈ rs_options (excluded_select v) →
         opt_default o = true ↔ ∃ z, z ∈ excluded ∧ opt_value o = OptId z)
    ∧ head (rs_options (admiral_select v))
      = Some (none_option (bool_decide (adm = None))).
Proof.
  destruct (panel_selects_saved guild invoker allowed excluded adm war log_id by_ at_)
    as (v & Hv & Ea & Ee & Eadm).
  exists v. rewrite Ea, Ee, Eadm. split_and!; [done | | |].
  - intros o (r & Hval & Hdef)%role_options_default.
    rewrite Hdef, Hval, int_in_set_ints, bool_decide_eq_true. split.
    + intros Hin. by exists (role_id r).
    + by intros (z & Hz & [= ->]).
  - intros o (r & Hval & Hdef)%role_options_default.
    rewrite Hdef, Hval, int_in_set_ints, bool_decide_eq_true. split.
    + intros Hin. by exists (role_id r).
    + by intros (z & Hz & [= ->]).
  - by destruct adm.
Qed.

(** X25: the pickers the constructor builds on the empty config (nothing
    saved yet, or an unreadable file) mark no role and no channel as
    preselected, and mark the ["None"] option of the admiral and war-channel
    pickers. *)
Theorem pickers_on_empty_config (guild : Guild) (invoker : User) :
  ∃ v,
    panel_selects guild empty_cfg invoker = Ok v
    ∧ Forall (λ o, opt_default o = is_none (opt_value o)) (all_options v).
Proof.
  eexists. split; [reflexivity |].
  unfold all_options.
  cbn [allowed_select excluded_select admiral_select war_select log_select
       rs_with_options cs_with_options rs_options cs_options].
  assert (Hr : ∀ f, (∀ r, f r = false) →
            Forall (λ o, opt_default o = is_none (opt_value o)) (role_options guild f)).
  { intros f Hf. unfold role_options. apply Forall_fmap, Forall_forall. intros r _.
    apply Hf. }
  assert (Hc : ∀ f, (∀ c, f c = false) →
            Forall (λ o, opt_default o = is_none (opt_value o))
                   (channel_options guild f)).
  { intros f Hf. unfold channel_options. apply Forall_fmap, Forall_forall. intros c _.
    apply Hf. }
  repeat (apply Forall_app; split); repeat (apply Forall_cons; split);
    try reflexivity; try (apply Hr; by intros r); apply Hc; by intros c.
Qed.

Lemma new_SetupView_buttons guild cfg invoker v :
  panel_selects guild cfg invoker = Ok v →
  new_SetupView guild cfg invoker = Raise ValueError.
Proof. unfold new_SetupView. by intros ->. Qed.

Lemma new_SetupView_fails guild cfg invoker :
  ∃ e, new_SetupView guild cfg invoker = Raise e.
Proof.
  destruct (panel_selects guild cfg invoker) as [v|e] eqn:Ev.
  - exists ValueError. by eapply new_SetupView_buttons.
  - exists e. unfold new_SetupView. by rewrite Ev.
Qed.

Lemma new_SetupView_saved guild invoker allowed excluded adm war log_id by_ at_ :
  new_SetupView guild (new_cfg_of allowed excluded adm war log_id by_ at_) invoker
  = Raise ValueError.
Proof.
  destruct (panel_selects_saved guild invoker allowed excluded adm war log_id by_ at_)
    as (v & Hv & _).
  by eapply new_SetupView_buttons.
Qed.

(** X28: the constructor of the panel never returns.  On every guild, config
    and invoker it raises; and once the pickers are built -- as they are on
    the empty config and on every config that [save] wrote -- what it raises
    is the [ValueError] of the Save button, which asks for row 5. *)
Theorem new_SetupView_raises (guild : Guild) (invoker : User) :
  (∀ cfg, ∃ e, new_SetupView guild cfg invoker = Raise e)
  ∧ (∀ cfg v, panel_selects guild cfg invoker = Ok v →
       new_SetupView guild cfg invoker = Raise ValueError)
  ∧ new_SetupView guild empty_cfg invoker = Raise ValueError
  ∧ ∀ allowed excluded adm war log_id by_ at_,
      new_SetupView guild (new_cfg_of allowed excluded adm war log_id by_ at_) invoker
      = Raise ValueError.
Proof.
  split_and!.
  - intros cfg. apply new_SetupView_fails.
  - intros cfg v. apply new_SetupView_buttons.
  - reflexivity.
  - intros. apply new_SetupView_saved.
Qed.

(** X29: [/setup] never opens the panel.  Run in a guild, it raises before
    it answers, leaving the world as it was: no message, no panel, no
    write.  When the guild has no file, an unreadable file or a config that
    [save] wrote, the exception is the [ValueError] of the Save button. *)
Theorem setup_never_opens_panel (i : Interaction) (guild : Guild) (w : World) :
  inter_guild i = Some guild →
  (∃ e, setup_cmd i w = (Raise e, w))
  ∧ (files w !! guild_id guild = None → setup_cmd i w = (Raise ValueError, w))
  ∧ (∀ text, files w !! guild_id guild = Some text → loads text = None →
       setup_cmd i w = (Raise ValueError, w))
  ∧ (∀ text allowed excluded adm war log_id by_ at_,
       files w !! guild_id guild = Some text →
       loads text = Some (new_cfg_of allowed excluded adm war log_id by_ at_) →
       setup_cmd i w = (Raise ValueError, w)).
Proof.
  intros Hg.
  assert (Hrun : ∀ cfg, load_cfg (guild_id guild) w = (Ok cfg, w) →
            ∀ e, new_SetupView guild cfg (inter_user i) = Raise e →
            setup_cmd i w = (Raise e, w)).
  { intros cfg Hload e He. unfold setup_cmd. rewrite Hg. unfold bind at 1.
    rewrite Hload. unfold bind at 1. unfold lift_result. by rewrite He. }
  assert (Hload : ∃ cfg, load_cfg (guild_id guild) w = (Ok cfg, w)).
  { cbv [load_cfg bind get ret]. destruct (files w !! guild_id guild) as [text|];
      [destruct (loads text) |]; by eexists. }
  split_and!.
  - destruct Hload as (cfg & Hload).
    destruct (new_SetupView_fails guild cfg (inter_user i)) as (e & He).
    exists e. by eapply Hrun.
  - intros Hfile. apply (Hrun empty_cfg); [| done].
    cbv [load_cfg bind get ret]. by rewrite Hfile.
  - intros text Hfile Hloads. apply (Hrun empty_cfg); [| done].
    cbv [load_cfg bind get ret]. by rewrite Hfile, Hloads.
  - intros text allowed excluded adm war log_id by_ at_ Hfile Hloads.
    apply (Hrun (new_cfg_of allowed excluded adm war log_id by_ at_));
      [| apply new_SetupView_saved].
    cbv [load_cfg bind get ret]. by rewrite Hfile, Hloads.
Qed.

End Reopening.

Section CommandPhase.
Context `{JsonCodec}.

(** X26: running [/roe] or [/declare] only opens the modal: nothing is
    posted in a channel, answered or written until the modal is submitted,
    so an abandoned modal leaves no announcement and no audit entry. *)
Theorem commands_only_open_modal (i : Interaction) (offender : User) (target : Role) :
  only_emits is_modal (roe i offender target)
  ∧ only_emits is_modal (declare i target).
Proof.
  split.
  - unfold roe. destruct (inter_guild i) as [guild|]; [| apply only_emits_throw].
    apply only_emits_bind; [apply only_emits_load_cfg | intros cfg].
    apply only_emits_bind; [by apply only_emits_emit | intros; apply only_emits_ret].
  - unfold declare. destruct (inter_guild i) as [guild|]; [| apply only_emits_throw].
    apply only_emits_bind; [apply only_emits_load_cfg | intros cfg].
    do 4 (apply only_emits_bind; [apply only_emits_lift_result | intros ?]).
    apply only_emits_bind; [by apply only_emits_emit | intros; apply only_emits_ret].
Qed.

(** X27: [/declare] on a config written by [save] resolves the admiral
    role and the war channel from the stored ids when the command runs and
    hands them to the modal's callback: a stored admiral id that is null,
    zero or names no role of the guild gives no admiral, without an error. *)
Theorem declare_resolves_from_saved (i : Interaction) (target : Role) (guild : Guild)
    (w : World) (text : Text)
    (allowed excluded : list Z) (adm war : option Z) (log_id by_ at_ : Z) :
  inter_guild i = Some guild →
  files w !! guild_id guild = Some text →
  loads text = Some (new_cfg_of allowed excluded adm war log_id by_ at_) →
  net_ok w (ResponseModal (inter_id i)) = true →
  declare i target w
  = (Ok (declare_after_modal_submit i target guild
           (new_cfg_of allowed excluded adm war log_id by_ at_)
           (admiral_of guild adm) (war_channel_of guild war)),
     extend w [ResponseModal (inter_id i)]).
Proof.
  intros Hg Hfile Hloads Hnet. unfold declare. rewrite Hg.
  assert (Hload : load_cfg (guild_id guild) w
                  = (Ok (new_cfg_of allowed excluded adm war log_id by_ at_), w)).
  { unfold load_cfg, bind, get, ret. by rewrite Hfile, Hloads. }
  unfold bind at 1. rewrite Hload.
  change (py_get (new_cfg_of allowed excluded adm war log_id by_ at_)
            "admiral_role_id" PNone) with (Ok (of_opt_int adm)).
  change (py_get (new_cfg_of allowed excluded adm war log_id by_ at_)
            "war_channel_id" PNone) with (Ok (of_opt_int war)).
  assert (Hadm : (if truthy (of_opt_int adm)
                  then get_role guild (of_opt_int adm) else Ok None)
                 = Ok (admiral_of guild adm)).
  { destruct adm as [z|]; [| done]. cbn [of_opt_int truthy admiral_of].
    destruct (z =? 0); [done |]. apply get_role_int. }
  assert (Hwar : (if truthy (of_opt_int war)
                  then get_channel guild (of_opt_int war) else Ok None)
                 = Ok (war_channel_of guild war)).
  { destruct war as [z|]; [| done]. cbn [of_opt_int truthy war_channel_of].
    destruct (z =? 0); [done |]. apply get_channel_int. }
  cbv [bind lift_result]. rewrite Hadm. cbv beta iota. rewrite Hwar.
  cbv [emit bind get put throw ret]. by rewrite Hnet.
Qed.

End CommandPhase.

(** * The model run on the example community *)

Section Runs.
Import Example.

Example grounded_is_excluded :
  can_use_commands grounded (PDict cfg_dict) = Ok (false, msg_excluded).
Proof. vm_compute. reflexivity. Qed.

Example stranger_lacks_role :
  can_use_commands stranger (PDict cfg_dict) = Ok (false, msg_missing_role).
Proof. vm_compute. reflexivity. Qed.

Example role_pickers_by_rank :
  opt_value <$> rs_options (allowed_select panel) = [OptId 10; OptId 20].
Proof. vm_compute. reflexivity. Qed.

Example prefix_counts_code_points :
  py_prefix 3 "héllo" = "hél" ∧ py_len "héllo" = 5%nat
  ∧ String.length "héllo" = 6%nat.
Proof. vm_compute. done. Qed.

Example long_label_cut :
  (λ o, (py_len (opt_label o), String.length (opt_label o)))
    <$> rs_options (allowed_select wordy_panel)
  = [(95%nat, 190%nat)].
Proof. vm_compute. reflexivity. Qed.

Example setup_raises_on_stored_config :
  setup_cmd (H := id_codec) (click admin) calm = (Raise ValueError, calm).
Proof. vm_compute. reflexivity. Qed.

Example save_with_log_only_trace :
  (λ e, match e with
        | FileWrite g _ => inl g
        | ChannelSend c _ _ m => inr (c, am_everyone m)
        | _ => inl 0
        end)
    <$> trace (world (save (H := id_codec) (click admin) (run_session only_log opened)).2)
  = [inl 0; inl 1; inl 0; inr (500, false)].
Proof. vm_compute. reflexivity. Qed.

End Runs.

(** * Instances of the theorems on the example community *)

Lemma exclusion_takes_precedence_witness :
  holds_any Example.both [10] ∧ holds_any Example.both [20]
  ∧ can_use_commands Example.grounded (PDict Example.cfg_dict) = Ok (false, msg_excluded).
Proof.
  assert (Ha : holds_any Example.both [10]).
  { exists Example.pilot. split; [right; left | left]. }
  assert (He : holds_any Example.both [20]).
  { exists Example.banned. split; [right; right; left | left]. }
  split_and!; [exact Ha | exact He |].
  apply (exclusion_takes_precedence Example.grounded Example.both Example.cfg_dict [10] [20]);
    [reflexivity | reflexivity | reflexivity | discriminate | exact Ha | exact He].
Defined.

Lemma empty_allowed_denies_everyone_witness :
  can_use_commands Example.grounded (PDict Example.unconfigured)
  = Ok (false, msg_not_configured).
Proof.
  apply (empty_allowed_denies_everyone Example.grounded Example.unconfigured).
  reflexivity.
Defined.

Lemma unreadable_store_denies_all_witness :
  load_cfg (H := Example.id_codec) 1 Example.empty_disk
  = (Ok empty_cfg, Example.empty_disk).
Proof.
  apply (unreadable_store_denies_all (H := Example.id_codec) 1 Example.empty_disk).
  left. reflexivity.
Defined.

Lemma log_action_missing_destination_witness :
  log_action (H := Example.id_codec) Example.guild (PDict Example.stale_log)
    "entry" None Example.calm
  = (Ok tt, Example.calm).
Proof.
  apply (log_action_missing_destination (H := Example.id_codec)).
  right. right. exists 700. split; [reflexivity |].
  intros c Hc Hid. apply list_elem_of_In in Hc. simpl in Hc.
  destruct Hc as [<- | [<- | [<- | []]]]; [discriminate | discriminate | reflexivity].
Defined.

Lemma save_without_log_channel_witness :
  save (H := Example.id_codec) (Example.click Example.admin) Example.opened
  = (Ok tt, extend Example.opened [ResponseSend 42 msg_select_log true]).
Proof.
  destruct (save_without_log_channel (H := Example.id_codec)
              (Example.click Example.admin) Example.opened)
    as (added & E & _ & _ & _ & Hsurfaced); [reflexivity |].
  destruct Hsurfaced as [Hok Hadded]; [constructor | constructor | reflexivity |].
  rewrite Hadded in E. apply injective_projections; [exact Hok | exact E].
Defined.

Lemma save_write_precedes_audit_witness :
  ∃ added,
    trace (world (save (H := Example.id_codec) (Example.click Example.admin)
                    {| self := set_values PLog [OptId 500] Example.panel;
                       world := Example.full_disk |}).2)
    = trace Example.full_disk ++ added
    ∧ Forall (λ e, ¬ is_channel_send e) added.
Proof.
  destruct (save_write_precedes_audit (H := Example.id_codec)
              (Example.click Example.admin)
              {| self := set_values PLog [OptId 500] Example.panel;
                 world := Example.full_disk |})
    as (added & E & _ & Hfail).
  exists added. split; [exact E |]. apply Hfail. reflexivity.
Defined.

Lemma interaction_check_gate_witness :
  self (interaction_check (H := Example.id_codec)
          (Example.click Example.stranger) Example.opened).2
  = Example.panel.
Proof.
  destruct (interaction_check_gate (H := Example.id_codec)
              (Example.click Example.stranger) Example.opened)
    as (_ & _ & Hother).
  apply Hother. reflexivity.
Defined.


Lemma save_then_load_witness :
  let after :=
    world (save (H := Example.id_codec) (Example.click Example.admin)
             {| self := set_values PLog [OptId 500] Example.panel;
                world := Example.calm |}).2 in
  load_cfg 1 after
  = (Ok (new_cfg_of [] [] None None 500 7 1700000000), after).
Proof.
  apply (save_then_load (H := Example.id_codec) (Example.click Example.admin)
           (set_values PLog [OptId 500] Example.panel) Example.calm [] [] 500 []);
    reflexivity.
Defined.

(** C4 as stated fails: choosing ["none"] for the admiral role and never
    touching that picker leave the same record in the store. *)
Lemma explicit_none_stored_as_untouched :
  let stored session :=
    files (world (save (H := Example.id_codec) (Example.click Example.admin)
                    (run_session session Example.opened)).2) !! 1 in
  untouched PAdmiral Example.only_log
  ∧ latest PAdmiral Example.none_then_log = [OptNone]
  ∧ stored Example.only_log
    = Some (new_cfg_of [] [] None None 500 7 1700000000)
  ∧ stored Example.none_then_log = stored Example.only_log.
Proof.
  split_and!.
  - repeat constructor. discriminate.
  - reflexivity.
  - vm_compute. reflexivity.
  - vm_compute. reflexivity.
Qed.

(** * Instances of the further properties on the example community *)

Lemma can_use_commands_decision_witness :
  can_use_commands Example.stranger (PDict Example.cfg_dict)
  = Ok (false, msg_missing_role).
Proof.
  exact (can_use_commands_decision Example.stranger
           {| member_roles := [Example.everyone]; member_administrator := false |}
           Example.cfg_dict [10] [20] eq_refl eq_refl eq_refl).
Defined.

Lemma can_use_commands_outside_server_witness :
  can_use_commands Example.outsider (PDict Example.cfg_dict)
  = Ok (false, msg_not_in_server).
Proof.
  apply (can_use_commands_outside_server Example.outsider Example.cfg_dict);
    reflexivity.
Defined.

Lemma non_object_config_raises_witness :
  require_configured_access (H := Example.id_codec)
    (Example.click Example.grounded) Example.array_on_disk
  = (Raise AttributeError, Example.array_on_disk)
  ∧ setup_cmd (H := Example.id_codec) (Example.click Example.admin) Example.array_on_disk
    = (Raise AttributeError, Example.array_on_disk).
Proof.
  split.
  - apply (non_object_config_raises (H := Example.id_codec) Example.array_on_disk
             (PList [PInt 10]) (PList [PInt 10]) (Example.click Example.grounded)
             Example.guild); [reflexivity | reflexivity | reflexivity | discriminate].
  - apply (non_object_config_raises (H := Example.id_codec) Example.array_on_disk
             (PList [PInt 10]) (PList [PInt 10]) (Example.click Example.admin)
             Example.guild); [reflexivity | reflexivity | reflexivity | discriminate].
Defined.

Lemma get_role_mentions_skips_stale_witness :
  get_role_mentions Example.guild (PList [PInt 10; PInt 99; PInt 20])
  = get_role_mentions Example.guild (PList [PInt 10; PInt 20]).
Proof.
  apply (get_role_mentions_skips_stale Example.guild [10] [20] 99). reflexivity.
Defined.

Lemma log_action_delivery_witness :
  log_action (H := Example.id_codec) Example.guild (PDict Example.cfg_dict)
    "entry" None Example.calm
  = (Ok tt, extend Example.calm
              [ChannelSend 500 (Some "entry") None roles_users_only]).
Proof.
  apply (log_action_delivery (H := Example.id_codec) Example.guild Example.cfg_dict
           500 Example.log_channel "entry" None Example.calm); reflexivity.
Defined.

Lemma announcement_failure_stops_witness :
  roe_after_modal_submit (H := Example.id_codec) (Example.click Example.grounded)
    Example.stranger Example.banned Example.guild (PDict Example.cfg_dict)
    (Example.click Example.grounded) "spawn camping" Example.offline
  = (Raise HTTPException, Example.offline).
Proof.
  apply (announcement_failure_stops (H := Example.id_codec)
           (Example.click Example.grounded) Example.stranger Example.banned
           Example.guild (PDict Example.cfg_dict) None None
           (Example.click Example.grounded) "spawn camping" Example.offline).
  reflexivity.
Defined.

Lemma roe_posts_report_witness :
  ∃ embed a b c d audit,
    (roe_after_modal_submit (H := Example.id_codec) (Example.click Example.grounded)
       Example.stranger Example.banned Example.guild (PDict Example.cfg_dict)
       (Example.click Example.grounded) "spawn camping" Example.calm).2
    = extend Example.calm
        (ChannelSend 600 (Some "<@&20>") (Some embed) roles_users_only
         :: ResponseSend 42 "Posted in <#600> (jump: https://example/1)." true
         :: audit)
    ∧ embed_description embed = a +:+ "<@9>" +:+ b +:+ "<@8>" +:+ c +:+ "spawn camping" +:+ d
    ∧ (audit = [] ∨ ∃ ch text, audit = [ChannelSend ch (Some text) None roles_users_only]).
Proof.
  apply (roe_posts_report (H := Example.id_codec) (Example.click Example.grounded)
           Example.stranger Example.banned Example.guild (PDict Example.cfg_dict)
           (Example.click Example.grounded) "spawn camping" Example.calm).
  reflexivity.
Defined.

Lemma declare_mirrors_announcement_witness :
  ∃ embed confirmation audit,
    (declare_after_modal_submit (H := Example.id_codec) (Example.click Example.grounded)
       Example.banned Example.guild (PDict Example.cfg_dict) (Some Example.pilot)
       (Some Example.war_room) (Example.click Example.grounded) "raid" Example.calm).2
    = extend Example.calm
        (ChannelSend 600 (Some "<@&20> <@&10>") (Some embed) roles_users_only
         :: ChannelSend 600 (Some "<@&20> <@&10>") (Some embed) roles_users_only
         :: ResponseSend 42 confirmation true
         :: audit)
    ∧ (audit = [] ∨ ∃ ch text, audit = [ChannelSend ch (Some text) None roles_users_only]).
Proof.
  apply (declare_mirrors_announcement (H := Example.id_codec)
           (Example.click Example.grounded) Example.banned Example.guild
           (PDict Example.cfg_dict) (Some Example.pilot) Example.war_room
           (Example.click Example.grounded) "raid" Example.calm); reflexivity.
Defined.

Lemma save_success_witness :
  ∃ summary,
    save (H := Example.id_codec) (Example.click Example.admin)
      {| self := Example.with_log 500; world := Example.calm |}
    = (Ok tt,
       extend {| self := Example.with_log 500;
                 world := written Example.calm 1
                            (new_cfg_of [] [] None None 500 7 1700000000) |}
         [ResponseEdit 42 ("✅ **Configuration saved.**" +:+ nl +:+ summary) true;
          ChannelSend 500
            (Some ("🛠️ Configuration updated by <@7>." +:+ nl +:+ summary))
            None roles_users_only]).
Proof.
  destruct (save_success (H := Example.id_codec) (Example.click Example.admin)
              (Example.with_log 500) Example.calm [] [] 500 [])
    as (summary & _ & Hrun); [reflexivity .. |].
  exists summary. exact Hrun.
Defined.

Lemma save_failed_confirmation_witness :
  save (H := Example.id_codec) (Example.click Example.admin)
    {| self := Example.with_log 500; world := Example.offline |}
  = (Raise HTTPException,
     {| self := Example.with_log 500;
        world := written Example.offline 1
                   (new_cfg_of [] [] None None 500 7 1700000000) |}).
Proof.
  apply (save_failed_confirmation (H := Example.id_codec) (Example.click Example.admin)
           (Example.with_log 500) Example.offline [] [] 500 []); reflexivity.
Defined.

Lemma last_save_wins_witness :
  files (world (save (H := Example.id_codec) (Example.click Example.admin)
                  {| self := Example.with_log 600;
                     world := world (save (H := Example.id_codec)
                                       (Example.click Example.grounded)
                                       {| self := Example.with_log 500;
                                          world := Example.calm |}).2 |}).2)
  = <[1 := new_cfg_of [] [] None None 600 7 1700000000]> (files Example.calm).
Proof.
  apply (last_save_wins (H := Example.id_codec) (Example.click Example.grounded)
           (Example.click Example.admin) (Example.with_log 500) (Example.with_log 600)
           Example.calm [] [] [] [] 500 600 [] []); reflexivity.
Defined.

Lemma save_with_untouched_allowed_locks_out_witness :
  let after :=
    world (save (H := Example.id_codec) (Example.click Example.admin)
             (run_session Example.only_log Example.opened)).2 in
  bind (load_cfg 1) (λ stored, lift_result (can_use_commands Example.grounded stored))
    after
  = (Ok (false, msg_not_configured), after).
Proof.
  apply (save_with_untouched_allowed_locks_out (H := Example.id_codec)
           Example.panel Example.calm Example.only_log (Example.click Example.admin)
           [] 500 []);
    [by intros [] | repeat constructor; discriminate
     | reflexivity | reflexivity | reflexivity | reflexivity].
Defined.

Lemma option_labels_bounded_witness :
  Forall (λ o, (py_len (opt_label o) ≤ 95)%nat) (all_options Example.wordy_panel).
Proof.
  apply (option_labels_bounded Example.wordy empty_cfg Example.admin).
  vm_compute. reflexivity.
Defined.

Lemma pickers_offer_witness :
  Forall (λ o, is_none (opt_value o) = false)
    (rs_options (allowed_select Example.panel)
     ++ rs_options (excluded_select Example.panel)
     ++ cs_options (log_select Example.panel)).
Proof.
  apply (pickers_offer Example.guild (PDict Example.cfg_dict) Example.admin).
  vm_compute. reflexivity.
Defined.

Lemma setup_never_opens_panel_witness :
  setup_cmd (H := Example.id_codec) (Example.click Example.admin) Example.empty_disk
  = (Raise ValueError, Example.empty_disk).
Proof.
  destruct (setup_never_opens_panel (H := Example.id_codec)
              (Example.click Example.admin) Example.guild Example.empty_disk)
    as (_ & Hmissing & _); [reflexivity |].
  apply Hmissing. reflexivity.
Defined.

Lemma config_show_unconfigured_witness :
  config_show (H := Example.id_codec) Example.show (Example.click Example.grounded)
    Example.empty_disk
  = (Ok tt, extend Example.empty_disk [ResponseSend 42 msg_no_config true]).
Proof.
  apply (config_show_unconfigured (H := Example.id_codec) Example.show
           (Example.click Example.grounded) Example.guild Example.empty_disk);
    [reflexivity | left; reflexivity].
Defined.

Lemma declare_resolves_from_saved_witness :
  declare (H := Example.id_codec) (Example.click Example.grounded) Example.banned
    {| files := {[ 1 := new_cfg_of [10] [] (Some 99) (Some 600) 500 7 1700000000 ]};
       trace := []; clock := 1700000000; disk_ok := λ _, true;
       net_ok := λ _, true; jump_url := λ _ _, "https://example/1" |}
  = (Ok (declare_after_modal_submit (Example.click Example.grounded) Example.banned
           Example.guild (new_cfg_of [10] [] (Some 99) (Some 600) 500 7 1700000000)
           None (Some Example.war_room)),
     extend
       {| files := {[ 1 := new_cfg_of [10] [] (Some 99) (Some 600) 500 7 1700000000 ]};
          trace := []; clock := 1700000000; disk_ok := λ _, true;
          net_ok := λ _, true; jump_url := λ _ _, "https://example/1" |}
       [ResponseModal 42]).
Proof.
  apply (declare_resolves_from_saved (H := Example.id_codec)
           (Example.click Example.grounded) Example.banned Example.guild _
           (new_cfg_of [10] [] (Some 99) (Some 600) 500 7 1700000000)
           [10] [] (Some 99) (Some 600) 500 7 1700000000); reflexivity.
Defined.
